(** * Payment, deposit and reporting rules of the contracts service

    A shallow embedding of [src/validator.js] and of the handlers of
    [src/app.js].  The amounts that rows and request bodies carry are decimal
    numbers, modelled as exact rationals ([Q]); the balance arithmetic of the
    database is exact on them, and two stored amounts are compared as the
    decimals they are.  The numbers JavaScript computes (the sums of prices,
    the deposit ceiling) are IEEE 754 binary64 values, with the rounding of
    every addition and multiplication, and JavaScript reads a decimal as the
    binary64 number nearest to it.
    An exception thrown by a validation rule is a value of [exn]; a rule
    that returns normally yields [Ok tt]. *)

From Stdlib Require Import ZArith QArith String Ascii List Bool Lia.
From Stdlib Require Import Permutation Sorted DecimalString.
From Stdlib Require Import Floats.SpecFloat.
Import ListNotations.

Local Open Scope string_scope.
Local Open Scope Q_scope.

(** ** JavaScript values and coercions *)

Module JS.

(** The primitive values a column or a request field can hold. *)
Inductive value : Type :=
| Undefined
| Null
| Bool (b : bool)
| Num (q : Q)
| Str (s : string).

(** [ToBoolean]: [undefined], [null], [false], [0] and [''] are falsy. *)
Definition truthy (v : value) : bool :=
  match v with
  | Undefined => false
  | Null => false
  | Bool b => b
  | Num q => negb (Qeq_bool q 0)
  | Str s => negb (String.eqb s "")
  end.

(** [a > b] on two stored amounts. *)
Definition gt (a b : Q) : bool := negb (Qle_bool a b).

(** What a [throw] carries: an [Error] given a [statusCode] by
    [throwHttpError], or a [TypeError] raised by the runtime itself. *)
Inductive exn : Type :=
| HttpError (statusCode : Z) (message : string)
| TypeError (message : string).

Inductive result (A : Type) : Type :=
| Ok (a : A)
| Throw (e : exn).
Arguments Ok {A} a.
Arguments Throw {A} e.

(** [Array.prototype.reduce(f)] without an initial value: the first element
    seeds the accumulator, and an empty array is a [TypeError]. *)
Definition reduce1 {A : Type} (f : A -> A -> A) (l : list A) : result A :=
  match l with
  | [] => Throw (TypeError "Reduce of empty array with no initial value")
  | x :: rest => Ok (fold_left f rest x)
  end.

(** [Array.prototype.reduce(f, init)]. *)
Definition reduce {A B : Type} (f : B -> A -> B) (init : B) (l : list A) : B :=
  fold_left f l init.

(** [Array.prototype.slice(0, end)] for an integral [end]: a negative
    [end] counts from the back of the array. *)
Definition slice0 {A : Type} (l : list A) (e : Z) : list A :=
  let len := Z.of_nat (length l) in
  let final := if (e <? 0)%Z then Z.max (len + e) 0 else Z.min e len in
  firstn (Z.to_nat final) l.

(** [Array.prototype.sort(cmp)], as a stable insertion sort that asks the
    comparator only whether [cmp x y < 0], that is whether [x] goes before
    [y]; [before x y] is that test. *)
Fixpoint insert {A : Type} (before : A -> A -> bool) (x : A) (l : list A) : list A :=
  match l with
  | [] => [x]
  | y :: rest => if before x y then x :: l else y :: insert before x rest
  end.

Definition sort {A : Type} (before : A -> A -> bool) (l : list A) : list A :=
  fold_left (fun acc x => insert before x acc) l [].

End JS.

Import JS.

(** ** Numbers as JavaScript computes with them: IEEE 754 binary64 *)

Module Binary64.

Definition number : Type := spec_float.

(** [a + b] and [a * b], rounded to nearest, ties to even. *)
Definition add (a b : number) : number := SFadd 53 1024 a b.
Definition mul (a b : number) : number := SFmul 53 1024 a b.

Definition zero : number := S754_zero false.

(** [a > b] and [a <= b]; both are false when an operand is [NaN]. *)
Definition gt (a b : number) : bool := SFltb b a.
Definition le (a b : number) : bool := SFleb a b.

Definition is_nan (x : number) : bool :=
  match x with
  | S754_nan => true
  | _ => false
  end.

Definition is_zero (x : number) : bool :=
  match x with
  | S754_zero _ => true
  | _ => false
  end.

(** [ToBoolean] of a number: [0], [-0] and [NaN] are falsy. *)
Definition truthy (x : number) : bool :=
  match x with
  | S754_zero _ => false
  | S754_nan => false
  | _ => true
  end.

(** [x || 0] *)
Definition or_zero (x : number) : number := if truthy x then x else zero.

(** The number JavaScript has for a decimal [d] (a numeric literal, a JSON
    number, a decimal column): the binary64 value nearest to [d], which is
    the correctly rounded quotient of its numerator by its denominator. *)
Definition Number (d : Q) : number :=
  match Qnum d with
  | Z0 => zero
  | Zpos n => SFdiv 53 1024 (S754_finite false n 0) (S754_finite false (Qden d) 0)
  | Zneg n => SFdiv 53 1024 (S754_finite true n 0) (S754_finite false (Qden d) 0)
  end.

(** The literal [0.25]. *)
Definition quarter : number := Eval vm_compute in Number (25 # 100).

(** [l.reduce((s, x) => s + x, 0)] *)
Definition sum (l : list number) : number := fold_left add l zero.

(** The whole part of a number, for printing whole amounts. *)
Definition to_Z (x : number) : Z :=
  match x with
  | S754_finite s m e => if s then (- Z.shiftl (Zpos m) e)%Z else Z.shiftl (Zpos m) e
  | _ => 0%Z
  end.

(** A key that orders the numbers other than [NaN] as [<] does: class and
    sign first, then exponent, then mantissa. *)
Definition rank (x : number) : Z * Z * Z :=
  match x with
  | S754_zero _ => (0, 0, 0)%Z
  | S754_nan => (0, 0, 0)%Z
  | S754_infinity s => ((if s then -2 else 2), 0, 0)%Z
  | S754_finite s m e => if s then (-1, - e, Zneg m)%Z else (1, e, Zpos m)%Z
  end.

Definition lt3 (a b : Z * Z * Z) : Prop :=
  (fst (fst a) < fst (fst b)
   \/ (fst (fst a) = fst (fst b)
       /\ (snd (fst a) < snd (fst b)
           \/ (snd (fst a) = snd (fst b) /\ snd a < snd b))))%Z.

End Binary64.

(** ** Entities, as the persistence layer hands them to the core *)

Record Profile : Type := {
  profile_id : Z;
  firstName : string;
  lastName : string;
  profession : string;
  balance : Q;
  profile_type : string
}.

(** A job row. *)
Record Job : Type := {
  job_id : Z;
  price : Q;
  paid : value;
  paymentDate : option Z;
  ContractId : Z
}.

(** A contract row. *)
Record Contract : Type := {
  contract_id : Z;
  status : string;
  ClientId : Z;
  ContractorId : Z
}.

(** ** src/validator.js *)

Module Validator.

Definition throwHttpError {A : Type} (statusCode : Z) (message : string) : result A :=
  Throw (HttpError statusCode message).

Definition validateJobClientType (profileType : string) : result unit :=
  if negb (String.eqb profileType "client")
  then throwHttpError 403 "Only clients can pay for a job"
  else Ok tt.

(** The contract of a fetched job with both parties joined in; a party the
    join did not find is [None] (JavaScript [null]). *)
Record JoinedContract : Type := {
  jc_contract : Contract;
  Client : option Profile;
  Contractor : option Profile
}.

Record JoinedJob : Type := {
  jj_job : Job;
  jj_Contract : JoinedContract
}.

(** [job.price > job.Contract.Client.balance]; reading [balance] of a
    [null] client is a [TypeError]. *)
Definition validatePayJob (job : option JoinedJob) : result unit :=
  match job with
  | None => throwHttpError 404 "Job not found"
  | Some job =>
      if truthy (paid (jj_job job))
      then throwHttpError 400 "Job is already paid"
      else
        match Client (jj_Contract job) with
        | None => Throw (TypeError "Cannot read properties of null (reading 'balance')")
        | Some client =>
            if gt (price (jj_job job)) (balance client)
            then throwHttpError 400 "Not enough balance to pay for this job"
            else Ok tt
        end
  end.

(** A contract with its jobs loaded, and a profile with its contracts
    loaded: [pc_Client] is [user.Client], the contracts in which the profile
    is the client, and [pc_Contractor] is [user.Contractor]; a query loads
    one of the two and leaves the other empty. *)
Record ContractWithJobs : Type := {
  cj_contract : Contract;
  Jobs : list Job
}.

Record ProfileWithContracts : Type := {
  pc_profile : Profile;
  pc_Client : list ContractWithJobs;
  pc_Contractor : list ContractWithJobs
}.

Definition contractJobsSum (contract : ContractWithJobs) : Binary64.number :=
  reduce (fun currentSum job => Binary64.add currentSum (Binary64.Number (price job)))
         Binary64.zero (Jobs contract).

Definition totalJobsToPayAmount (user : ProfileWithContracts) : Binary64.number :=
  reduce (fun sum contract => Binary64.add sum (contractJobsSum contract))
         Binary64.zero (pc_Client user).

Section WithNumberToString.

(** The text a template literal gives a number, [Number::toString]. *)
Variable Number_toString : Binary64.number -> string.

Definition depositCapMessage (total : Binary64.number) : string :=
  "Client can't deposit more than 25% his total of jobs to pay ("
    ++ Number_toString total ++ ")".

(** [depositValue] is the [value] field of the request body: the decimal
    of a JSON number, which the validator has as the binary64 number nearest
    to it, or [None] when the field is missing. *)
Definition validateDepositBalance
    (user : option ProfileWithContracts) (depositValue : option Q) : result unit :=
  match user with
  | None => throwHttpError 404 "User not found"
  | Some user =>
      if negb (String.eqb (profile_type (pc_profile user)) "client")
      then throwHttpError 400 "User is not a client"
      else
        match depositValue with
        | None => throwHttpError 400 "Deposit value is invalid (should be > 0)"
        | Some d =>
            let v := Binary64.Number d in
            if negb (Binary64.truthy v) || Binary64.le v Binary64.zero
            then throwHttpError 400 "Deposit value is invalid (should be > 0)"
            else
              if Binary64.gt v (Binary64.mul Binary64.quarter (totalJobsToPayAmount user))
              then throwHttpError 400 (depositCapMessage (totalJobsToPayAmount user))
              else Ok tt
        end
  end.

End WithNumberToString.

Section WithDayjs.

(** [dayjs(date, 'YYYY-MM-DD', true).isValid()], the strict parse of the
    dayjs library. *)
Variable isValid : string -> bool.

Fixpoint validateDates (dates : list string) : result unit :=
  match dates with
  | [] => Ok tt
  | date :: rest =>
      if negb (isValid date)
      then throwHttpError 400 ("Invalid date: " ++ date)
      else validateDates rest
  end.

End WithDayjs.

End Validator.

(** ** The strict date parse

    Modelled from the spec: the dayjs library and its customParseFormat plugin
    are not part of the sources, so the validity of
    [dayjs(date, 'YYYY-MM-DD', true)] is taken from the specification's words:
    a string is valid exactly when it is a calendar date written as four
    digits, a dash, two digits, a dash and two digits, the month being 01 to
    12 and the day existing in that month of that year (nothing is
    normalised). *)

Module StrictDate.

Local Open Scope Z_scope.

Definition is_digit (c : ascii) : bool :=
  let n := Z.of_nat (nat_of_ascii c) in (48 <=? n) && (n <=? 57).

Definition digit_value (c : ascii) : Z := Z.of_nat (nat_of_ascii c) - 48.

Definition is_leap_year (y : Z) : bool :=
  (y mod 4 =? 0) && (negb (y mod 100 =? 0) || (y mod 400 =? 0)).

Definition days_in_month (y m : Z) : Z :=
  if m =? 2 then (if is_leap_year y then 29 else 28)
  else if (m =? 4) || (m =? 6) || (m =? 9) || (m =? 11) then 30
  else 31.

Definition calendar_date (y m d : Z) : bool :=
  (1 <=? m) && (m <=? 12) && (1 <=? d) && (d <=? days_in_month y m).

Definition dash : ascii := "-"%char.

Definition isValid (date : string) : bool :=
  match list_ascii_of_string date with
  | [y1; y2; y3; y4; s1; m1; m2; s2; d1; d2] =>
      forallb is_digit [y1; y2; y3; y4; m1; m2; d1; d2]
      && Ascii.eqb s1 dash && Ascii.eqb s2 dash
      && calendar_date
           (1000 * digit_value y1 + 100 * digit_value y2
            + 10 * digit_value y3 + digit_value y4)
           (10 * digit_value m1 + digit_value m2)
           (10 * digit_value d1 + digit_value d2)
  | _ => false
  end.

(** The text of a date: the inverse direction, used to say which strings
    are accepted. *)
Definition digit_char (n : Z) : ascii := ascii_of_nat (Z.to_nat (48 + n mod 10)).

Definition format (y m d : Z) : string :=
  string_of_list_ascii
    [digit_char (y / 1000); digit_char (y / 100); digit_char (y / 10); digit_char y;
     dash; digit_char (m / 10); digit_char m;
     dash; digit_char (d / 10); digit_char d].

End StrictDate.

(** ** src/app.js *)

Module App.

Import Validator.

(** *** The persistence layer: three tables of rows, in storage order *)

Record DB : Type := {
  db_Profiles : list Profile;
  db_Contracts : list Contract;
  db_Jobs : list Job
}.

Definition Profile_byId (db : DB) (id : Z) : option Profile :=
  find (fun p => (profile_id p =? id)%Z) (db_Profiles db).

Definition Job_byId (db : DB) (id : Z) : option Job :=
  find (fun j => (job_id j =? id)%Z) (db_Jobs db).

Definition Contract_byId (db : DB) (id : Z) : option Contract :=
  find (fun c => (contract_id c =? id)%Z) (db_Contracts db).

(** [status: ['new', 'in_progress']] *)
Definition status_active (c : Contract) : bool :=
  String.eqb (status c) "new" || String.eqb (status c) "in_progress".

(** [Job.findOne] of the pay handler: the job with that id, joined
    (required) with its contract when the contract has [ClientId] equal to
    the caller's id and an active status, and (optionally) with the two
    profiles of the contract. *)
Definition Job_findOne (db : DB) (jobId callerId : Z) : option JoinedJob :=
  match Job_byId db jobId with
  | None => None
  | Some job =>
      match Contract_byId db (ContractId job) with
      | None => None
      | Some c =>
          if (ClientId c =? callerId)%Z && status_active c
          then Some {| jj_job := job;
                       jj_Contract :=
                         {| jc_contract := c;
                            Client := Profile_byId db (ClientId c);
                            Contractor := Profile_byId db (ContractorId c) |} |}
          else None
      end
  end.

Definition set_balance (p : Profile) (b : Q) : Profile :=
  {| profile_id := profile_id p; firstName := firstName p; lastName := lastName p;
     profession := profession p; balance := b; profile_type := profile_type p |}.

(** [instance.increment({ balance: by })]: one UPDATE of the row with the
    instance's id, [balance = balance + by]. *)
Definition Profile_increment (id : Z) (by_ : Q) (db : DB) : DB :=
  {| db_Profiles :=
       map (fun p => if (profile_id p =? id)%Z then set_balance p (balance p + by_) else p)
           (db_Profiles db);
     db_Contracts := db_Contracts db;
     db_Jobs := db_Jobs db |}.

(** [instance.decrement({ balance: by })]: [balance = balance - by]. *)
Definition Profile_decrement (id : Z) (by_ : Q) (db : DB) : DB :=
  {| db_Profiles :=
       map (fun p => if (profile_id p =? id)%Z then set_balance p (balance p - by_) else p)
           (db_Profiles db);
     db_Contracts := db_Contracts db;
     db_Jobs := db_Jobs db |}.

(** [job.update({ paid: true, paymentDate: new Date() })] *)
Definition Job_update_paid (id : Z) (now : Z) (db : DB) : DB :=
  {| db_Profiles := db_Profiles db;
     db_Contracts := db_Contracts db;
     db_Jobs :=
       map (fun j => if (job_id j =? id)%Z
                     then {| job_id := job_id j; price := price j; paid := Bool true;
                             paymentDate := Some now; ContractId := ContractId j |}
                     else j)
           (db_Jobs db) |}.

(** [sequelize.transaction(callback)]: the callback's writes are kept when
    it returns and dropped when it throws. *)
Definition transaction (callback : DB -> result DB) (db : DB) : result unit * DB :=
  match callback db with
  | Ok db' => (Ok tt, db')
  | Throw e => (Throw e, db)
  end.

(** *** Responses *)

Record BestClient : Type := {
  id : Z;
  fullName : string;
  bc_paid : Binary64.number
}.

Inductive body : Type :=
| NoBody
| Message (message : string)
| MessageError (error : exn)  (* [{ message: error }], the error object itself *)
| JsonString (s : string)
| JsonClients (l : list BestClient).

Record Response : Type := {
  res_status : Z;
  res_body : body
}.

(** The last middleware: [res.status(err.statusCode || 500)
    .send({ message: err.message })]. *)
Definition errorHandler (err : exn) : Response :=
  match err with
  | HttpError statusCode message =>
      {| res_status := if (statusCode =? 0)%Z then 500%Z else statusCode;
         res_body := Message message |}
  | TypeError message => {| res_status := 500%Z; res_body := Message message |}
  end.

(** The queries a handler sends, in order. *)
Inductive Query : Type :=
| SelectJob (jobId callerId : Z)
| SelectProfile (userId : Z)
| RunTransaction
| UpdateBalance (userId : Z).

(** *** POST /jobs/:job_id/pay *)

(** The callback of the transaction. *)
Definition payTransaction (now : Z) (job : option JoinedJob) (db : DB) : result DB :=
  match job with
  | None => Throw (TypeError "Cannot read properties of null (reading 'update')")
  | Some job =>
      let db1 := Job_update_paid (job_id (jj_job job)) now db in
      match Client (jj_Contract job) with
      | None => Throw (TypeError "Cannot read properties of null (reading 'decrement')")
      | Some client =>
          let db2 := Profile_decrement (profile_id client) (price (jj_job job)) db1 in
          match Contractor (jj_Contract job) with
          | None => Throw (TypeError "Cannot read properties of null (reading 'increment')")
          | Some contractor =>
              Ok (Profile_increment (profile_id contractor) (price (jj_job job)) db2)
          end
      end
  end.

(** The handler: the response, the database it leaves and the queries it
    sent.  [profile] is [req.profile], [now] the clock read by [new Date()]. *)
Definition payJob (now : Z) (profile : Profile) (jobId : Z) (db : DB)
  : Response * DB * list Query :=
  match validateJobClientType (profile_type profile) with
  | Throw e => (errorHandler e, db, [])
  | Ok _ =>
      let job := Job_findOne db jobId (profile_id profile) in
      match validatePayJob job with
      | Throw e => (errorHandler e, db, [SelectJob jobId (profile_id profile)])
      | Ok _ =>
          match transaction (payTransaction now job) db with
          | (Ok _, db') =>
              ({| res_status := 201%Z; res_body := NoBody |}, db',
               [SelectJob jobId (profile_id profile); RunTransaction])
          | (Throw error, db') =>
              ({| res_status := 400%Z; res_body := MessageError error |}, db',
               [SelectJob jobId (profile_id profile); RunTransaction])
          end
      end
  end.

(** *** POST /balances/deposit/:user_id *)

(** [paid: null] in a [where]: the column IS NULL. *)
Definition is_null (v : value) : bool :=
  match v with
  | Null => true
  | _ => false
  end.

(** [Profile.findOne] of the deposit handler: the profile with that id,
    with every contract whose [ClientId] is that id and, for each of them,
    every job whose [paid] is null (both joins are optional). *)
Definition Profile_findOne (db : DB) (userId : Z) : option ProfileWithContracts :=
  match Profile_byId db userId with
  | None => None
  | Some p =>
      Some {| pc_profile := p;
              pc_Client :=
                map (fun c =>
                       {| cj_contract := c;
                          Jobs := filter (fun j => (ContractId j =? contract_id c)%Z
                                                   && is_null (paid j))
                                         (db_Jobs db) |})
                    (filter (fun c => (ClientId c =? userId)%Z) (db_Contracts db));
              pc_Contractor := [] |}
  end.

Section Deposit.

Variable Number_toString : Binary64.number -> string.

Definition deposit (userId : Z) (depositValue : option Q) (db : DB)
  : Response * DB * list Query :=
  let user := Profile_findOne db userId in
  match validateDepositBalance Number_toString user depositValue with
  | Throw e => (errorHandler e, db, [SelectProfile userId])
  | Ok _ =>
      match user, depositValue with
      | Some user, Some v =>
          ({| res_status := 201%Z; res_body := NoBody |},
           Profile_increment (profile_id (pc_profile user)) v db,
           [SelectProfile userId; UpdateBalance (profile_id (pc_profile user))])
      | _, _ =>
          (errorHandler (TypeError "Cannot read properties of null (reading 'increment')"),
           db, [SelectProfile userId])
      end
  end.

End Deposit.

(** *** The two reports

    [users] is the array [Profile.findAll] returned: the profiles of the
    wanted type, each with its contracts and, in them, the paid jobs whose
    payment date is in the range. *)

(** The sum both reports take over the loaded contracts of a user. *)
Definition paidJobsSum (contracts : list ContractWithJobs) : Binary64.number :=
  reduce (fun sum contract =>
            Binary64.add sum
              (reduce (fun currentSum job =>
                         Binary64.add currentSum
                           (Binary64.or_zero (Binary64.Number (price job))))
                      Binary64.zero (Jobs contract)))
         Binary64.zero contracts.

(** [professionMap]: an object used as a map from profession to amount,
    kept as its own properties in creation order.  What the object inherits
    from [Object.prototype] is not represented: the map stands for the code's
    object when no profession is one of the inherited names. *)
Definition PropertyMap : Type := list (string * Binary64.number).

Fixpoint get (m : PropertyMap) (k : string) : option Binary64.number :=
  match m with
  | [] => None
  | (k', v) :: rest => if String.eqb k' k then Some v else get rest k
  end.

(** Assignment keeps the place of a property that exists and appends a new
    one. *)
Fixpoint set (m : PropertyMap) (k : string) (v : Binary64.number) : PropertyMap :=
  match m with
  | [] => [(k, v)]
  | (k', v') :: rest =>
      if String.eqb k' k then (k', v) :: rest else (k', v') :: set rest k v
  end.

(** [!m[k]]: true for a missing property, for [0] and for [NaN].  (A name
    inherited from [Object.prototype] is never missing in the code; such
    names are outside what [PropertyMap] stands for.) *)
Definition falsy_at (m : PropertyMap) (k : string) : bool :=
  match get m k with
  | None => true
  | Some v => negb (Binary64.truthy v)
  end.

(** [m[a] > m[b]]; a missing property compares false. *)
Definition gt_at (m : PropertyMap) (a b : string) : bool :=
  match get m a, get m b with
  | Some x, Some y => Binary64.gt x y
  | _, _ => false
  end.

Definition positive_at (m : PropertyMap) (a : string) : bool :=
  match get m a with
  | Some x => Binary64.gt x Binary64.zero
  | None => false
  end.

(** Array indices: the canonical decimal strings of the integers below
    [2^32 - 1]. *)
Fixpoint digits_value (acc : N) (s : string) : option N :=
  match s with
  | EmptyString => Some acc
  | String c rest =>
      if StrictDate.is_digit c
      then digits_value (10 * acc + Z.to_N (StrictDate.digit_value c))%N rest
      else None
  end.

Definition array_index (s : string) : option N :=
  match s with
  | EmptyString => None
  | String c rest =>
      if Ascii.eqb c "0"%char && negb (String.eqb rest "")
      then None
      else match digits_value 0%N s with
           | Some n => if (n <? 2 ^ 32 - 1)%N then Some n else None
           | None => None
           end
  end.

(** [Object.keys]: the array-index keys in ascending numeric order, then
    the other keys in creation order. *)
Definition Object_keys (m : PropertyMap) : list string :=
  let indexed :=
    flat_map (fun kv => match array_index (fst kv) with
                        | Some n => [(n, fst kv)]
                        | None => []
                        end) m in
  let named :=
    filter (fun k => match array_index k with Some _ => false | None => true end)
           (map fst m) in
  map snd (sort (fun a b => (fst a <? fst b)%N) indexed) ++ named.

(** The body of [users.forEach], for a profession that is not a name
    inherited from [Object.prototype]: [if (!m[p]) m[p] = 0; m[p] += sum]. *)
Definition addUser (professionMap : PropertyMap) (user : ProfileWithContracts)
  : PropertyMap :=
  let profession := profession (pc_profile user) in
  let m1 := if falsy_at professionMap profession
            then set professionMap profession Binary64.zero
            else professionMap in
  match get m1 profession with
  | Some v => set m1 profession (Binary64.add v (paidJobsSum (pc_Contractor user)))
  | None => m1
  end.

Definition noProfessions : string := "No professions were paid in this time range".

Definition toBestClient (user : ProfileWithContracts) : BestClient :=
  {| id := profile_id (pc_profile user);
     fullName := firstName (pc_profile user) ++ " " ++ lastName (pc_profile user);
     bc_paid := paidJobsSum (pc_Client user) |}.

(** The comparator [(a, b) => a.paid > b.paid ? -1 : 1] is negative exactly
    when [a.paid > b.paid]. *)
Definition paidBefore (a b : BestClient) : bool :=
  Binary64.gt (bc_paid a) (bc_paid b).

Section Reports.

Variable isValid : string -> bool.

(** GET /admin/best-profession *)
Definition bestProfession (start end_ : string) (users : list ProfileWithContracts)
  : Response :=
  match validateDates isValid [start; end_] with
  | Throw e => errorHandler e
  | Ok _ =>
      let professionMap := fold_left addUser users [] in
      match reduce1 (fun a b => if gt_at professionMap a b then a else b)
                    (Object_keys professionMap) with
      | Throw e => errorHandler e
      | Ok bestProfession =>
          {| res_status := 200%Z;
             res_body := JsonString (if positive_at professionMap bestProfession
                                     then bestProfession
                                     else noProfessions) |}
      end
  end.

(** GET /admin/best-clients.  [limit] is the integer that [slice] makes
    of the [limit] query parameter, [None] when the parameter is absent. *)
Definition bestClients (start end_ : string) (limit : option Z)
    (users : list ProfileWithContracts) : Response :=
  let limit := match limit with Some n => n | None => 2%Z end in
  match validateDates isValid [start; end_] with
  | Throw e => errorHandler e
  | Ok _ =>
      let bestClients := sort paidBefore (map toBestClient users) in
      {| res_status := 200%Z; res_body := JsonClients (slice0 bestClients limit) |}
  end.

End Reports.

End App.

(** ** src/app.js, the read-only routes *)

Module Reads.

Import Validator App.

(** What a read route sends: [res.status(code).end()], or [res.json(a)]. *)
Inductive reply (A : Type) : Type :=
| StatusOnly (code : Z)
| Json (a : A).
Arguments StatusOnly {A} code.
Arguments Json {A} a.

(** [[contract.ContractorId, contract.ClientId].includes(req.profile.id)] *)
Definition includesProfile (contract : Contract) (profileId : Z) : bool :=
  existsb (fun x => (x =? profileId)%Z) [ContractorId contract; ClientId contract].

(** GET /contracts/:id *)
Definition getContract (profile : Profile) (id : Z) (db : DB) : reply Contract :=
  match Contract_byId db id with
  | None => StatusOnly 403
  | Some contract =>
      if negb (includesProfile contract (profile_id profile))
      then StatusOnly 403
      else Json contract
  end.

(** [req.profile.type === 'client' ? { ClientId: req.profile.id }
     : { ContractorId: req.profile.id }], as a test on a contract row. *)
Definition userWhereClause (profile : Profile) (c : Contract) : bool :=
  if String.eqb (profile_type profile) "client"
  then (ClientId c =? profile_id profile)%Z
  else (ContractorId c =? profile_id profile)%Z.

(** GET /contracts: the body of the 200 response. *)
Definition listContracts (profile : Profile) (db : DB) : list Contract :=
  filter (fun c => userWhereClause profile c && status_active c) (db_Contracts db).

(** A job with its contract joined in. *)
Record JobWithContract : Type := {
  jw_job : Job;
  jw_Contract : Contract
}.

(** GET /jobs/unpaid: the jobs whose [paid] is null, joined (required) with
    their contract when it is the caller's and its status is
    ['in_progress']. *)
Definition unpaidJobs (profile : Profile) (db : DB) : list JobWithContract :=
  flat_map
    (fun j =>
       if is_null (paid j)
       then match Contract_byId db (ContractId j) with
            | Some c =>
                if userWhereClause profile c && String.eqb (status c) "in_progress"
                then [ {| jw_job := j; jw_Contract := c |} ]
                else []
            | None => []
            end
       else [])
    (db_Jobs db).

End Reads.

(** ** Reference notions the properties are stated with *)

Import Validator App.

(** The sum of a list of amounts. *)
Definition Qsum (l : list Q) : Q := fold_right Qplus 0 l.


(** Decimal text of a whole amount; [Number::toString] agrees with it on the
    integers below [10^21]. *)
Definition integer_toString (x : Binary64.number) : string :=
  NilZero.string_of_int (Z.to_int (Binary64.to_Z x)).

(** What the deposit handler's fetch makes the validator add up: for every
    contract of which the profile is the client, in storage order, the
    binary64 sum of the prices of its jobs whose [paid] is null, and then the
    binary64 sum of those sums. *)
Definition owed (db : DB) (userId : Z) : Binary64.number :=
  Binary64.sum
    (map (fun c =>
            Binary64.sum
              (map (fun j => Binary64.Number (price j))
                   (filter (fun j => (ContractId j =? contract_id c)%Z
                                     && is_null (paid j))
                           (db_Jobs db))))
         (filter (fun c => (ClientId c =? userId)%Z) (db_Contracts db))).

(** The property names an object literal inherits from [Object.prototype]. *)
Definition Object_prototype_names : list string :=
  ["constructor"; "__defineGetter__"; "__defineSetter__"; "hasOwnProperty";
   "__lookupGetter__"; "__lookupSetter__"; "isPrototypeOf"; "propertyIsEnumerable";
   "toString"; "valueOf"; "__proto__"; "toLocaleString"].

(** No contractor's profession is an inherited property name. *)
Definition own_names (users : list ProfileWithContracts) : Prop :=
  forall u, In u users -> ~ In (profession (pc_profile u)) Object_prototype_names.

(** The data model's invariant on contracts: the client and the contractor
    of a contract are two profiles. *)
Definition distinct_parties (db : DB) : Prop :=
  forall c : Contract, In c (db_Contracts db) -> ClientId c <> ContractorId c.

(** The amount a property map holds for a key, [0] when it has none. *)
Definition amount_at (m : PropertyMap) (k : string) : Binary64.number :=
  match get m k with
  | Some x => x
  | None => Binary64.zero
  end.

(** One contractor's share in a running total: the total so far (taken as
    [0] while it is falsy, as the loop does) plus the contractor's sum. *)
Definition addShare (total : Binary64.number) (u : ProfileWithContracts)
  : Binary64.number :=
  Binary64.add (Binary64.or_zero total) (paidJobsSum (pc_Contractor u)).

(** What the contractors of profession [p] were paid in all: their sums,
    added up in fetch order. *)
Definition professionSum (users : list ProfileWithContracts) (p : string)
  : Binary64.number :=
  fold_left addShare
            (filter (fun u => String.eqb (profession (pc_profile u)) p) users)
            Binary64.zero.

(** Descending order of the paid sums: the later entry is not greater. *)
Definition paidDescending : BestClient -> BestClient -> Prop :=
  fun a b => Binary64.gt (bc_paid b) (bc_paid a) = false.

(** The strings that are a calendar date written as [YYYY-MM-DD]. *)
Definition strict_YYYY_MM_DD (s : string) : Prop :=
  exists y m d : Z,
    (0 <= y <= 9999)%Z /\
    StrictDate.calendar_date y m d = true /\
    s = StrictDate.format y m d.

(** Primary keys: no two rows of a table share an id. *)
Definition unique_profile_ids (db : DB) : Prop := NoDup (map profile_id (db_Profiles db)).
Definition unique_job_ids (db : DB) : Prop := NoDup (map job_id (db_Jobs db)).
Definition unique_contract_ids (db : DB) : Prop :=
  NoDup (map contract_id (db_Contracts db)).

(** All the money held in balances. *)
Definition totalBalance (db : DB) : Q := Qsum (map balance (db_Profiles db)).

(** The job found by the pay handler's lookup, with everything joined. *)
Definition joinedJob (db : DB) (job : Job) (c : Contract) : JoinedJob :=
  {| jj_job := job;
     jj_Contract := {| jc_contract := c;
                       Client := Profile_byId db (ClientId c);
                       Contractor := Profile_byId db (ContractorId c) |} |}.

(** ** The data of the repository's tests and of the end-to-end scenario *)

Module Fixtures.

Definition harry : Profile :=
  {| profile_id := 1; firstName := "Harry"; lastName := "Potter";
     profession := "Wizard"; balance := 1250; profile_type := "client" |}.

Definition linus : Profile :=
  {| profile_id := 6; firstName := "Linus"; lastName := "Torvalds";
     profession := "Programmer"; balance := 1214; profile_type := "contractor" |}.

Definition contract1 : Contract :=
  {| contract_id := 1; status := "terminated"; ClientId := 1; ContractorId := 5 |}.

Definition contract2 : Contract :=
  {| contract_id := 2; status := "in_progress"; ClientId := 1; ContractorId := 6 |}.

Definition job1 : Job :=
  {| job_id := 1; price := 200; paid := Null; paymentDate := None; ContractId := 1 |}.

Definition job2 : Job :=
  {| job_id := 2; price := 201; paid := Null; paymentDate := None; ContractId := 2 |}.

Definition with_paid (j : Job) (v : value) : Job :=
  {| job_id := job_id j; price := price j; paid := v;
     paymentDate := paymentDate j; ContractId := ContractId j |}.

Definition with_price (j : Job) (p : Q) : Job :=
  {| job_id := job_id j; price := p; paid := paid j;
     paymentDate := paymentDate j; ContractId := ContractId j |}.

(** The job of the validatePayJob test. *)
Definition joined (j : Job) : JoinedJob :=
  {| jj_job := j;
     jj_Contract := {| jc_contract := contract2;
                       Client := Some harry; Contractor := Some linus |} |}.

(** The user of the validateDepositBalance test. *)
Definition user : ProfileWithContracts :=
  {| pc_profile := set_balance harry 1150;
     pc_Client := [ {| cj_contract := contract1; Jobs := [job1] |};
                    {| cj_contract := contract2; Jobs := [job2] |} ];
     pc_Contractor := [] |}.

Definition with_type (u : ProfileWithContracts) (t : string) : ProfileWithContracts :=
  {| pc_profile :=
       {| profile_id := profile_id (pc_profile u); firstName := firstName (pc_profile u);
          lastName := lastName (pc_profile u); profession := profession (pc_profile u);
          balance := balance (pc_profile u); profile_type := t |};
     pc_Client := pc_Client u;
     pc_Contractor := pc_Contractor u |}.

(** A client without any job to pay. *)
Definition idle_user : ProfileWithContracts :=
  {| pc_profile := harry; pc_Client := []; pc_Contractor := [] |}.

(** The end-to-end scenario: client A (balance 1000) pays a job priced 300
    of an in-progress contract with contractor B (balance 200). *)
Definition clientA : Profile :=
  {| profile_id := 10; firstName := "A"; lastName := "Client";
     profession := "Buyer"; balance := 1000; profile_type := "client" |}.

Definition contractorB : Profile :=
  {| profile_id := 20; firstName := "B"; lastName := "Contractor";
     profession := "Builder"; balance := 200; profile_type := "contractor" |}.

Definition scenario : DB :=
  {| db_Profiles := [clientA; contractorB];
     db_Contracts := [ {| contract_id := 7; status := "in_progress";
                          ClientId := 10; ContractorId := 20 |} ];
     db_Jobs := [ {| job_id := 3; price := 300; paid := Null;
                     paymentDate := None; ContractId := 7 |} ] |}.

(** The same contract with one profile on both sides. *)
Definition selfContract : DB :=
  {| db_Profiles := [clientA];
     db_Contracts := [ {| contract_id := 7; status := "in_progress";
                          ClientId := 10; ContractorId := 10 |} ];
     db_Jobs := [ {| job_id := 3; price := 300; paid := Null;
                     paymentDate := None; ContractId := 7 |} ] |}.

(** Three clients with paid sums 500, 300 and 0. *)
Definition paidJob (n : Z) (p : Q) : Job :=
  {| job_id := n; price := p; paid := Bool true; paymentDate := Some 5%Z;
     ContractId := n |}.

Definition clientWith (n : Z) (first last : string) (jobs : list Job)
  : ProfileWithContracts :=
  {| pc_profile := {| profile_id := n; firstName := first; lastName := last;
                      profession := "None"; balance := 0; profile_type := "client" |};
     pc_Client := [ {| cj_contract := contract2; Jobs := jobs |} ];
     pc_Contractor := [] |}.

Definition threeClients : list ProfileWithContracts :=
  [ clientWith 3 "John" "Snow" [paidJob 1 300];
    clientWith 4 "Ash" "Kethcum" [];
    clientWith 2 "Mr" "Robot" [paidJob 2 200; paidJob 3 300] ].

End Fixtures.

(** Two contractors of different professions, each paid 100. *)
Definition tiedContractors : list ProfileWithContracts :=
  [ {| pc_profile := Fixtures.linus; pc_Client := [];
       pc_Contractor := [ {| cj_contract := Fixtures.contract2;
                             Jobs := [Fixtures.paidJob 1 100] |} ] |};
    {| pc_profile := Fixtures.contractorB; pc_Client := [];
       pc_Contractor := [ {| cj_contract := Fixtures.contract1;
                             Jobs := [Fixtures.paidJob 2 100] |} ] |} ].

(** A client owing two jobs priced 0.1 and 0.7. *)
Definition dimes : ProfileWithContracts :=
  {| pc_profile := Fixtures.harry;
     pc_Client := [ {| cj_contract := Fixtures.contract2;
                       Jobs := [ Fixtures.with_price Fixtures.job1 (1 # 10);
                                 Fixtures.with_price Fixtures.job2 (7 # 10) ] |} ];
     pc_Contractor := [] |}.

(** Client B paid one job of 0.3, client A two jobs of 0.1 and 0.2. *)
Definition cents : list ProfileWithContracts :=
  [ Fixtures.clientWith 1 "B" "Client" [Fixtures.paidJob 1 (3 # 10)];
    Fixtures.clientWith 2 "A" "Client"
      [Fixtures.paidJob 2 (1 # 10); Fixtures.paidJob 3 (2 # 10)] ].

(** A programmer paid 0.1 and 0.2, then a builder paid 0.3. *)
Definition centsContractors : list ProfileWithContracts :=
  [ {| pc_profile := Fixtures.linus; pc_Client := [];
       pc_Contractor := [ {| cj_contract := Fixtures.contract2;
                             Jobs := [ Fixtures.paidJob 1 (1 # 10);
                                       Fixtures.paidJob 2 (2 # 10) ] |} ] |};
    {| pc_profile := Fixtures.contractorB; pc_Client := [];
       pc_Contractor := [ {| cj_contract := Fixtures.contract1;
                             Jobs := [Fixtures.paidJob 3 (3 # 10)] |} ] |} ].

(** A store with a second, new contract of client A and a job on it. *)
Definition twoContracts : DB :=
  {| db_Profiles := [Fixtures.clientA; Fixtures.contractorB];
     db_Contracts := [ {| contract_id := 7; status := "in_progress";
                          ClientId := 10; ContractorId := 20 |};
                       {| contract_id := 8; status := "new";
                          ClientId := 10; ContractorId := 20 |};
                       {| contract_id := 9; status := "terminated";
                          ClientId := 10; ContractorId := 20 |} ];
     db_Jobs := [ {| job_id := 3; price := 300; paid := Null;
                     paymentDate := None; ContractId := 7 |};
                  {| job_id := 4; price := 50; paid := Null;
                     paymentDate := None; ContractId := 8 |};
                  {| job_id := 5; price := 20; paid := Bool true;
                     paymentDate := Some 1%Z; ContractId := 7 |} ] |}.

(** * Properties *)

(** ** Comparisons and sums of decimals *)

Lemma gt_true_iff (a b : Q) : gt a b = true <-> b < a.
Proof.
  unfold gt. rewrite negb_true_iff. split.
  - intros H. apply Qnot_le_lt. intros Hle.
    apply Qle_bool_iff in Hle. congruence.
  - intros H. destruct (Qle_bool a b) eqn:E; [|reflexivity].
    apply Qle_bool_iff in E. exfalso. exact (Qlt_not_le _ _ H E).
Qed.

Lemma gt_false_iff (a b : Q) : gt a b = false <-> a <= b.
Proof.
  unfold gt. rewrite negb_false_iff. apply Qle_bool_iff.
Qed.

Lemma not_client_iff (t : string) : negb (String.eqb t "client") = true <-> t <> "client".
Proof.
  rewrite negb_true_iff. split.
  - intros H E. apply String.eqb_eq in E. congruence.
  - intros H. apply String.eqb_neq. exact H.
Qed.




(** ** Order and sign of binary64 numbers *)

Module Binary64Facts.

Import Binary64.

Lemma lt_rank (x y : number) :
  SFltb x y = true <->
  is_nan x = false /\ is_nan y = false /\ lt3 (rank x) (rank y).
Proof.
  unfold SFltb, lt3.
  destruct x as [sx|sx| |sx mx ex], y as [sy|sy| |sy my ey];
    try destruct sx; try destruct sy; simpl;
    try (split; [discriminate | intros (N1 & N2 & H); try discriminate; lia]);
    try (split; [intros _; repeat split; lia | reflexivity]).
  - change (Pos.compare_cont Eq mx my) with (Pos.compare mx my).
    destruct (Z.compare_spec ex ey); [destruct (Pos.compare_spec mx my)| |];
      (split; [intros H'; try discriminate H'; repeat split; lia
              | intros (_ & _ & H'); try reflexivity; lia]).
  - change (Pos.compare_cont Eq mx my) with (Pos.compare mx my).
    destruct (Z.compare_spec ex ey); [destruct (Pos.compare_spec mx my)| |];
      (split; [intros H'; try discriminate H'; repeat split; lia
              | intros (_ & _ & H'); try reflexivity; lia]).
Qed.


Lemma gt_not_nan (a b : number) :
  gt a b = true -> is_nan a = false /\ is_nan b = false.
Proof.
  unfold gt. intros H. apply lt_rank in H. tauto.
Qed.

Lemma gt_irrefl (a : number) : gt a a = false.
Proof.
  unfold gt. destruct (SFltb a a) eqn:E; [|reflexivity].
  apply lt_rank in E. destruct E as (_ & _ & E). unfold lt3 in E. lia.
Qed.

Lemma gt_asym (a b : number) : gt a b = true -> gt b a = false.
Proof.
  unfold gt. intros H. destruct (SFltb a b) eqn:E; [|reflexivity].
  apply lt_rank in H. apply lt_rank in E.
  destruct H as (_ & _ & H). destruct E as (_ & _ & E).
  unfold lt3 in *. lia.
Qed.



(** "Not greater" is transitive through a number that is not [NaN]. *)
Lemma not_gt_trans (a b c : number) :
  is_nan b = false ->
  gt a b = false -> gt b c = false -> gt a c = false.
Proof.
  unfold gt. intros Nb Hab Hbc.
  destruct (SFltb c a) eqn:E; [|reflexivity].
  apply lt_rank in E. destruct E as (Nc & Na & E).
  assert (H1 : ~ lt3 (rank b) (rank a)).
  { intros H. assert (SFltb b a = true) by (apply lt_rank; tauto). congruence. }
  assert (H2 : ~ lt3 (rank c) (rank b)).
  { intros H. assert (SFltb c b = true) by (apply lt_rank; tauto). congruence. }
  unfold lt3 in *. lia.
Qed.

(** Below a number that is itself not above a third one. *)
Lemma lt_not_gt_trans (a b c : number) :
  gt b a = true -> gt b c = false -> gt a c = false.
Proof.
  unfold gt. intros Hab Hbc.
  destruct (SFltb c a) eqn:E; [|reflexivity].
  apply lt_rank in E. destruct E as (Nc & Na & E).
  apply lt_rank in Hab. destruct Hab as (_ & Nb & Hab).
  assert (H2 : ~ lt3 (rank c) (rank b)).
  { intros H. assert (SFltb c b = true) by (apply lt_rank; tauto). congruence. }
  unfold lt3 in *. lia.
Qed.

(** Not above a number that is below a third one. *)
Lemma not_gt_lt_trans (a b c : number) :
  gt a b = false -> gt c b = true -> gt a c = false.
Proof.
  unfold gt. intros Hab Hbc.
  destruct (SFltb c a) eqn:E; [|reflexivity].
  apply lt_rank in E. destruct E as (Nc & Na & E).
  apply lt_rank in Hbc. destruct Hbc as (Nb & _ & Hbc).
  assert (H1 : ~ lt3 (rank b) (rank a)).
  { intros H. assert (SFltb b a = true) by (apply lt_rank; tauto). congruence. }
  unfold lt3 in *. lia.
Qed.

(** [!v || v <= 0] is the negation of [v > 0]. *)
Lemma invalid_iff_not_positive (v : number) :
  negb (truthy v) || le v zero = negb (gt v zero).
Proof.
  destruct v as [[]|[]| |[] m e]; reflexivity.
Qed.

(** Comparing with a zero of either sign. *)
Lemma gt_any_zero (v z : number) : is_zero z = true -> gt v z = gt v zero.
Proof.
  destruct z as [s| | |]; try discriminate. intros _.
  destruct v as [[]|[]| |[] m e], s; reflexivity.
Qed.

Lemma mul_quarter_zero (z : number) : is_zero z = true -> is_zero (mul quarter z) = true.
Proof.
  destruct z as [s| | |]; try discriminate. intros _. reflexivity.
Qed.

(** Rounding keeps the sign it is given. *)
Lemma round_sign (s : bool) (m e : Z) (l : location) :
  match binary_round_aux 53 1024 s m e l with
  | S754_zero s' | S754_infinity s' | S754_finite s' _ _ => s' = s
  | S754_nan => True
  end.
Proof.
  unfold binary_round_aux.
  destruct (shr_fexp 53 1024 m e l) as [mrs' e'].
  destruct (shr_fexp 53 1024 _ e' loc_Exact) as [mrs'' e''].
  destruct (shr_m mrs''); [reflexivity | | exact I].
  destruct (Z.leb _ _); reflexivity.
Qed.

(** The number read from a decimal that is not above 0 is not above 0. *)
Lemma Number_nonpositive (d : Q) : d <= 0 -> gt (Number d) zero = false.
Proof.
  intros H. unfold Number.
  destruct (Qnum d) as [|n|n] eqn:E.
  - reflexivity.
  - exfalso. unfold Qle in H. simpl in H. rewrite E in H. lia.
  - unfold SFdiv.
    destruct (SFdiv_core_binary 53 1024 (Z.pos n) 0 (Z.pos (Qden d)) 0) as [[mz ez] lz].
    pose proof (round_sign (xorb true false) mz ez lz) as Hs.
    destruct (binary_round_aux 53 1024 (xorb true false) mz ez lz);
      try (simpl in Hs; subst); reflexivity.
Qed.

(** A decimal read as a number above 0 is above 0. *)
Lemma Number_above_zero (d : Q) : gt (Number d) zero = true -> 0 < d.
Proof.
  intros H. destruct (Qlt_le_dec 0 d) as [Hd|Hd]; [exact Hd|].
  rewrite (Number_nonpositive d Hd) in H. discriminate H.
Qed.

Lemma sum_map {A : Type} (f : A -> number) (l : list A) (acc : number) :
  fold_left (fun s x => add s (f x)) l acc = fold_left add (map f l) acc.
Proof.
  revert acc. induction l as [|x l IH]; intros acc; simpl; [reflexivity|].
  apply IH.
Qed.

End Binary64Facts.

(** ** The sums the handlers compute *)

Lemma contractJobsSum_spec (c : ContractWithJobs) :
  contractJobsSum c = Binary64.sum (map (fun j => Binary64.Number (price j)) (Jobs c)).
Proof.
  unfold contractJobsSum, reduce, Binary64.sum. apply Binary64Facts.sum_map.
Qed.

Lemma totalJobsToPayAmount_spec (user : ProfileWithContracts) :
  totalJobsToPayAmount user
  = Binary64.sum
      (map (fun c => Binary64.sum (map (fun j => Binary64.Number (price j)) (Jobs c)))
           (pc_Client user)).
Proof.
  unfold totalJobsToPayAmount, reduce, Binary64.sum.
  rewrite Binary64Facts.sum_map. f_equal.
  apply map_ext. intros c. apply contractJobsSum_spec.
Qed.

Lemma paidJobsSum_spec (contracts : list ContractWithJobs) :
  paidJobsSum contracts
  = Binary64.sum
      (map (fun c =>
              Binary64.sum
                (map (fun j => Binary64.or_zero (Binary64.Number (price j))) (Jobs c)))
           contracts).
Proof.
  unfold paidJobsSum, reduce, Binary64.sum.
  rewrite Binary64Facts.sum_map. f_equal.
  apply map_ext. intros c. apply Binary64Facts.sum_map.
Qed.

(** ** The repository's validator tests, replayed *)

Example test_validateJobClientType :
  validateJobClientType "client" = Ok tt /\
  validateJobClientType "contractor" = Throw (HttpError 403 "Only clients can pay for a job").
Proof. split; reflexivity. Qed.

Example test_validatePayJob :
  validatePayJob (Some (Fixtures.joined Fixtures.job2)) = Ok tt /\
  validatePayJob None = Throw (HttpError 404 "Job not found") /\
  validatePayJob (Some (Fixtures.joined (Fixtures.with_paid Fixtures.job2 (Bool true))))
    = Throw (HttpError 400 "Job is already paid") /\
  validatePayJob
    (Some (Fixtures.joined
             (Fixtures.with_price (Fixtures.with_paid Fixtures.job2 (Bool false)) 3000)))
    = Throw (HttpError 400 "Not enough balance to pay for this job").
Proof. repeat split; reflexivity. Qed.

Example test_validateDepositBalance :
  validateDepositBalance integer_toString (Some Fixtures.user) (Some 100) = Ok tt /\
  validateDepositBalance integer_toString None None
    = Throw (HttpError 404 "User not found") /\
  validateDepositBalance integer_toString
    (Some (Fixtures.with_type Fixtures.user "contractor")) (Some 100)
    = Throw (HttpError 400 "User is not a client") /\
  validateDepositBalance integer_toString (Some Fixtures.user) (Some (-200))
    = Throw (HttpError 400 "Deposit value is invalid (should be > 0)") /\
  validateDepositBalance integer_toString (Some Fixtures.user) (Some 400)
    = Throw (HttpError 400
               "Client can't deposit more than 25% his total of jobs to pay (401)").
Proof. repeat split; vm_compute; reflexivity. Qed.

Example test_validateDates :
  validateDates StrictDate.isValid ["2010-01-01"; "2020-12-31"] = Ok tt /\
  validateDates StrictDate.isValid ["2010-01-01"; "2020-02-31"]
    = Throw (HttpError 400 "Invalid date: 2020-02-31") /\
  validateDates StrictDate.isValid ["123456"]
    = Throw (HttpError 400 "Invalid date: 123456").
Proof. repeat split; reflexivity. Qed.

(** ** Payable-job check *)

(** C2: the payable-job check fails as 404 for an absent job; otherwise as
    400 "already paid" when [paid] is truthy, whatever the balance; otherwise
    as 400 "not enough balance" when the price exceeds the client's balance;
    otherwise it passes.  The checks apply in that order. *)
Theorem validatePayJob_checks_in_order :
  validatePayJob None = Throw (HttpError 404 "Job not found") /\
  (forall job : JoinedJob,
      truthy (paid (jj_job job)) = true ->
      validatePayJob (Some job) = Throw (HttpError 400 "Job is already paid")) /\
  (forall (job : JoinedJob) (client : Profile),
      truthy (paid (jj_job job)) = false ->
      Client (jj_Contract job) = Some client ->
      balance client < price (jj_job job) ->
      validatePayJob (Some job)
      = Throw (HttpError 400 "Not enough balance to pay for this job")) /\
  (forall (job : JoinedJob) (client : Profile),
      truthy (paid (jj_job job)) = false ->
      Client (jj_Contract job) = Some client ->
      price (jj_job job) <= balance client ->
      validatePayJob (Some job) = Ok tt).
Proof.
  split; [reflexivity|]. split; [|split].
  - intros job Hpaid. simpl. now rewrite Hpaid.
  - intros job client Hpaid Hclient Hlt. simpl. rewrite Hpaid, Hclient.
    apply gt_true_iff in Hlt. now rewrite Hlt.
  - intros job client Hpaid Hclient Hle. simpl. rewrite Hpaid, Hclient.
    apply gt_false_iff in Hle. now rewrite Hle.
Qed.

Lemma validatePayJob_checks_in_order_witness :
  validatePayJob (Some (Fixtures.joined (Fixtures.with_paid Fixtures.job2 (Bool true))))
  = Throw (HttpError 400 "Job is already paid") /\
  validatePayJob (Some (Fixtures.joined (Fixtures.with_price Fixtures.job2 3000)))
  = Throw (HttpError 400 "Not enough balance to pay for this job") /\
  validatePayJob (Some (Fixtures.joined Fixtures.job2)) = Ok tt.
Proof.
  destruct validatePayJob_checks_in_order as (_ & Hpaid & Hpoor & Hok).
  split; [|split].
  - apply Hpaid. reflexivity.
  - apply (Hpoor _ Fixtures.harry); [reflexivity | reflexivity | reflexivity].
  - apply (Hok _ Fixtures.harry); [reflexivity | reflexivity | discriminate].
Defined.

(** C9: the already-paid check tests truthiness, so a job whose [paid] is
    [false], [0], the empty string, [null] or [undefined] counts as unpaid:
    the outcome is that of the balance check alone. *)
Theorem validatePayJob_falsy_paid_is_unpaid
    (job : JoinedJob) (client : Profile) :
  In (paid (jj_job job)) [Bool false; Num 0; Str ""; Null; Undefined] ->
  Client (jj_Contract job) = Some client ->
  truthy (paid (jj_job job)) = false /\
  validatePayJob (Some job)
  = if gt (price (jj_job job)) (balance client)
    then Throw (HttpError 400 "Not enough balance to pay for this job")
    else Ok tt.
Proof.
  intros Hin Hclient.
  assert (Hfalsy : truthy (paid (jj_job job)) = false).
  { simpl in Hin.
    destruct Hin as [E|[E|[E|[E|[E|[]]]]]]; rewrite <- E; reflexivity. }
  split; [exact Hfalsy|].
  simpl. now rewrite Hfalsy, Hclient.
Qed.

Lemma validatePayJob_falsy_paid_is_unpaid_witness :
  truthy (Bool false) = false /\
  validatePayJob (Some (Fixtures.joined (Fixtures.with_paid Fixtures.job2 (Bool false))))
  = Ok tt.
Proof.
  apply (validatePayJob_falsy_paid_is_unpaid
           (Fixtures.joined (Fixtures.with_paid Fixtures.job2 (Bool false)))
           Fixtures.harry).
  - simpl. left. reflexivity.
  - reflexivity.
Defined.

(** ** Caller-role check *)

Lemma validateJobClientType_client (t : string) :
  t = "client" -> validateJobClientType t = Ok tt.
Proof. intros ->. reflexivity. Qed.

Lemma validateJobClientType_other (t : string) :
  t <> "client" ->
  validateJobClientType t = Throw (HttpError 403 "Only clients can pay for a job").
Proof.
  intros H. unfold validateJobClientType.
  apply not_client_iff in H. now rewrite H.
Qed.

(** C4: a caller whose profile type is not exactly "client" gets 403 from the
    pay handler and no query at all is sent (the database is untouched); for
    a "client" the role check passes, the job lookup is the first query and
    the outcome of the payable-job check decides the response. *)
Theorem payJob_role_check
    (now : Z) (profile : Profile) (jobId : Z) (db : DB) :
  (profile_type profile <> "client" ->
   payJob now profile jobId db
   = ({| res_status := 403%Z; res_body := Message "Only clients can pay for a job" |},
      db, [])) /\
  (profile_type profile = "client" ->
   validateJobClientType (profile_type profile) = Ok tt /\
   hd_error (snd (payJob now profile jobId db))
   = Some (SelectJob jobId (profile_id profile)) /\
   (forall e : exn,
       validatePayJob (Job_findOne db jobId (profile_id profile)) = Throw e ->
       payJob now profile jobId db
       = (errorHandler e, db, [SelectJob jobId (profile_id profile)])) /\
   (validatePayJob (Job_findOne db jobId (profile_id profile)) = Ok tt ->
    snd (payJob now profile jobId db)
    = [SelectJob jobId (profile_id profile); RunTransaction])).
Proof.
  split.
  - intros H. unfold payJob. now rewrite (validateJobClientType_other _ H).
  - intros H. unfold payJob. rewrite (validateJobClientType_client _ H).
    split; [reflexivity|]. split; [|split].
    + destruct (validatePayJob _) as [[]|e]; [|reflexivity].
      destruct (transaction _ _) as [[[]|e] db']; reflexivity.
    + intros e He. now rewrite He.
    + intros Hok. rewrite Hok.
      destruct (transaction _ _) as [[[]|e] db']; reflexivity.
Qed.

Lemma payJob_role_check_witness :
  payJob 0 Fixtures.contractorB 3 Fixtures.scenario
  = ({| res_status := 403%Z; res_body := Message "Only clients can pay for a job" |},
     Fixtures.scenario, []) /\
  hd_error (snd (payJob 0 Fixtures.clientA 3 Fixtures.scenario))
  = Some (SelectJob 3 10).
Proof.
  split.
  - apply (proj1 (payJob_role_check 0 Fixtures.contractorB 3 Fixtures.scenario)).
    discriminate.
  - apply (proj2 (payJob_role_check 0 Fixtures.clientA 3 Fixtures.scenario)).
    reflexivity.
Defined.

(** ** Deposit validation *)

(** For a client, the amount check and then the ceiling. *)
Lemma validateDepositBalance_client
    (Number_toString : Binary64.number -> string) (user : ProfileWithContracts) (v : Q) :
  profile_type (pc_profile user) = "client" ->
  validateDepositBalance Number_toString (Some user) (Some v)
  = if Binary64.gt (Binary64.Number v) Binary64.zero
    then if Binary64.gt (Binary64.Number v)
                        (Binary64.mul Binary64.quarter (totalJobsToPayAmount user))
         then Throw (HttpError 400 (depositCapMessage Number_toString
                                      (totalJobsToPayAmount user)))
         else Ok tt
    else Throw (HttpError 400 "Deposit value is invalid (should be > 0)").
Proof.
  intros Htype. unfold validateDepositBalance. rewrite Htype.
  change (negb ("client" =? "client")%string) with false. cbv iota zeta.
  rewrite Binary64Facts.invalid_iff_not_positive.
  destruct (Binary64.gt (Binary64.Number v) Binary64.zero); reflexivity.
Qed.

Lemma validateDepositBalance_invalid_amount
    (Number_toString : Binary64.number -> string) (user : ProfileWithContracts)
    (depositValue : option Q) :
  profile_type (pc_profile user) = "client" ->
  match depositValue with Some v => v <= 0 | None => True end ->
  validateDepositBalance Number_toString (Some user) depositValue
  = Throw (HttpError 400 "Deposit value is invalid (should be > 0)").
Proof.
  intros Htype Hv. destruct depositValue as [v|].
  - rewrite validateDepositBalance_client by assumption.
    now rewrite (Binary64Facts.Number_nonpositive v Hv).
  - unfold validateDepositBalance. now rewrite Htype.
Qed.

(** C5: deposit validation fails as 404 "User not found" for an absent
    profile; otherwise as 400 "User is not a client" for a profile whose type
    is not "client"; otherwise as 400 "Deposit value is invalid" for a
    missing, zero or negative amount.  The checks apply in that order. *)
Theorem validateDepositBalance_rejections (Number_toString : Binary64.number -> string) :
  (forall depositValue : option Q,
      validateDepositBalance Number_toString None depositValue
      = Throw (HttpError 404 "User not found")) /\
  (forall (user : ProfileWithContracts) (depositValue : option Q),
      profile_type (pc_profile user) <> "client" ->
      validateDepositBalance Number_toString (Some user) depositValue
      = Throw (HttpError 400 "User is not a client")) /\
  (forall user : ProfileWithContracts,
      profile_type (pc_profile user) = "client" ->
      validateDepositBalance Number_toString (Some user) None
      = Throw (HttpError 400 "Deposit value is invalid (should be > 0)")) /\
  (forall (user : ProfileWithContracts) (v : Q),
      profile_type (pc_profile user) = "client" ->
      v <= 0 ->
      validateDepositBalance Number_toString (Some user) (Some v)
      = Throw (HttpError 400 "Deposit value is invalid (should be > 0)")).
Proof.
  split; [reflexivity|]. split; [|split].
  - intros user dv H. unfold validateDepositBalance.
    apply not_client_iff in H. now rewrite H.
  - intros user H.
    now apply (validateDepositBalance_invalid_amount Number_toString user None).
  - intros user v H Hv.
    now apply (validateDepositBalance_invalid_amount Number_toString user (Some v)).
Qed.

Lemma validateDepositBalance_rejections_witness :
  validateDepositBalance integer_toString
    (Some (Fixtures.with_type Fixtures.user "contractor")) (Some 100)
  = Throw (HttpError 400 "User is not a client") /\
  validateDepositBalance integer_toString (Some Fixtures.user) None
  = Throw (HttpError 400 "Deposit value is invalid (should be > 0)") /\
  validateDepositBalance integer_toString (Some Fixtures.user) (Some 0)
  = Throw (HttpError 400 "Deposit value is invalid (should be > 0)") /\
  validateDepositBalance integer_toString (Some Fixtures.user) (Some (-200))
  = Throw (HttpError 400 "Deposit value is invalid (should be > 0)").
Proof.
  destruct (validateDepositBalance_rejections integer_toString)
    as (_ & Htype & Hmissing & Hnonpos).
  split; [|split; [|split]].
  - apply Htype. discriminate.
  - apply Hmissing. reflexivity.
  - apply Hnonpos; [reflexivity | discriminate].
  - apply Hnonpos; [reflexivity | discriminate].
Defined.

Lemma validateDepositBalance_positive
    (Number_toString : Binary64.number -> string) (user : ProfileWithContracts) (v : Q) :
  profile_type (pc_profile user) = "client" ->
  Binary64.gt (Binary64.Number v) Binary64.zero = true ->
  validateDepositBalance Number_toString (Some user) (Some v)
  = if Binary64.gt (Binary64.Number v)
                   (Binary64.mul Binary64.quarter (totalJobsToPayAmount user))
    then Throw (HttpError 400 (depositCapMessage Number_toString
                                 (totalJobsToPayAmount user)))
    else Ok tt.
Proof.
  intros Htype Hpos. rewrite validateDepositBalance_client by assumption.
  now rewrite Hpos.
Qed.


(** The total the validator computes for the profile the deposit handler
    fetched. *)
Lemma totalJobsToPayAmount_owed (db : DB) (userId : Z) (user : ProfileWithContracts) :
  Profile_findOne db userId = Some user ->
  totalJobsToPayAmount user = owed db userId.
Proof.
  intros H. rewrite totalJobsToPayAmount_spec. unfold owed, Profile_findOne in *.
  destruct (Profile_byId db userId) as [p|]; [|discriminate].
  injection H as <-. cbn [pc_Client]. now rewrite map_map.
Qed.



(** The total and the ceiling are what JavaScript computes.  The prices 0.1
    and 0.7 add up to 0.7999999999999999, not to the number read from 0.8,
    and a quarter of that is below 0.2: a deposit of 0.2 is refused. *)
Example validateDepositBalance_cap_rounding
    (Number_toString : Binary64.number -> string) :
  totalJobsToPayAmount dimes = S754_finite false 7205759403792793 (-53) /\
  Binary64.Number (8 # 10) = S754_finite false 7205759403792794 (-53) /\
  validateDepositBalance Number_toString (Some dimes) (Some (2 # 10))
  = Throw (HttpError 400
             (depositCapMessage Number_toString
                (S754_finite false 7205759403792793 (-53)))).
Proof.
  split; [vm_compute; reflexivity|]. split; [vm_compute; reflexivity|].
  rewrite validateDepositBalance_positive by (vm_compute; reflexivity).
  replace (totalJobsToPayAmount dimes)
    with (S754_finite false 7205759403792793 (-53)) by (vm_compute; reflexivity).
  replace (Binary64.gt _ _) with true by (vm_compute; reflexivity).
  reflexivity.
Qed.

Lemma validateDepositBalance_throws_leaves_db
    (Number_toString : Binary64.number -> string) (db : DB) (userId : Z)
    (depositValue : option Q) (e : exn) :
  validateDepositBalance Number_toString (Profile_findOne db userId) depositValue
  = Throw e ->
  deposit Number_toString userId depositValue db
  = (errorHandler e, db, [SelectProfile userId]).
Proof.
  intros H. unfold deposit. now rewrite H.
Qed.

(** C10: for a client whose total of jobs to pay is 0, every deposit with
    an amount above 0 fails the 25% cap check (400, with the cap message), so
    no deposit value at all passes the validation, and the deposit handler
    answers 400 and leaves the database as it was. *)
Theorem validateDepositBalance_nothing_owed
    (Number_toString : Binary64.number -> string) (user : ProfileWithContracts) :
  profile_type (pc_profile user) = "client" ->
  Binary64.is_zero (totalJobsToPayAmount user) = true ->
  (forall amount : Q,
      Binary64.gt (Binary64.Number amount) Binary64.zero = true ->
      validateDepositBalance Number_toString (Some user) (Some amount)
      = Throw (HttpError 400 (depositCapMessage Number_toString
                                (totalJobsToPayAmount user)))) /\
  (forall depositValue : option Q,
      validateDepositBalance Number_toString (Some user) depositValue <> Ok tt) /\
  (forall (db : DB) (userId : Z) (depositValue : option Q),
      Profile_findOne db userId = Some user ->
      res_status (fst (fst (deposit Number_toString userId depositValue db))) = 400%Z /\
      snd (fst (deposit Number_toString userId depositValue db)) = db).
Proof.
  intros Htype Hzero.
  assert (Hpos : forall amount : Q,
             Binary64.gt (Binary64.Number amount) Binary64.zero = true ->
             validateDepositBalance Number_toString (Some user) (Some amount)
             = Throw (HttpError 400 (depositCapMessage Number_toString
                                       (totalJobsToPayAmount user)))).
  { intros amount Hamount.
    rewrite validateDepositBalance_positive by assumption.
    rewrite (Binary64Facts.gt_any_zero _ _
               (Binary64Facts.mul_quarter_zero _ Hzero)).
    now rewrite Hamount. }
  assert (Hany : forall depositValue : option Q,
             exists message : string,
               validateDepositBalance Number_toString (Some user) depositValue
               = Throw (HttpError 400 message)).
  { intros [v|].
    - destruct (Binary64.gt (Binary64.Number v) Binary64.zero) eqn:Hv.
      + eexists. apply Hpos. exact Hv.
      + eexists. rewrite validateDepositBalance_client by assumption.
        rewrite Hv. reflexivity.
    - eexists.
      now apply (validateDepositBalance_invalid_amount Number_toString user None). }
  split; [exact Hpos|]. split.
  - intros dv. destruct (Hany dv) as [m Hm]. rewrite Hm. discriminate.
  - intros db userId dv Hfetch. destruct (Hany dv) as [m Hm].
    rewrite (validateDepositBalance_throws_leaves_db _ _ _ _ (HttpError 400 m)).
    + split; reflexivity.
    + rewrite Hfetch. exact Hm.
Qed.

Lemma validateDepositBalance_nothing_owed_witness :
  validateDepositBalance integer_toString (Some Fixtures.idle_user) (Some (1 # 100))
  = Throw (HttpError 400
             "Client can't deposit more than 25% his total of jobs to pay (0)").
Proof.
  apply (validateDepositBalance_nothing_owed integer_toString Fixtures.idle_user);
    vm_compute; reflexivity.
Defined.

(** ** Paying a job *)

Section RowUpdates.

Context {Row : Type} (key : Row -> Z) (change : Row -> Row).
Hypothesis change_keeps_key : forall r, key (change r) = key r.

(** Looking a row up by key after an UPDATE ... WHERE key = [k]. *)
Lemma find_after_update (k k' : Z) (rows : list Row) :
  find (fun r => (key r =? k')%Z)
       (map (fun r => if (key r =? k)%Z then change r else r) rows)
  = if (k' =? k)%Z
    then option_map change (find (fun r => (key r =? k')%Z) rows)
    else find (fun r => (key r =? k')%Z) rows.
Proof.
  induction rows as [|r rows IH]; simpl.
  - now destruct (k' =? k)%Z.
  - destruct (key r =? k)%Z eqn:Ek.
    + rewrite change_keeps_key.
      destruct (key r =? k')%Z eqn:Ek'.
      * apply Z.eqb_eq in Ek, Ek'.
        assert (E : (k' =? k)%Z = true) by (apply Z.eqb_eq; congruence).
        now rewrite E.
      * exact IH.
    + destruct (key r =? k')%Z eqn:Ek'.
      * apply Z.eqb_eq in Ek'. subst k'. now rewrite Ek.
      * exact IH.
Qed.

End RowUpdates.

Lemma Profile_byId_id (db : DB) (i : Z) (p : Profile) :
  Profile_byId db i = Some p -> profile_id p = i.
Proof.
  unfold Profile_byId. intros H. apply find_some in H.
  now apply Z.eqb_eq.
Qed.

Lemma Job_byId_id (db : DB) (i : Z) (j : Job) :
  Job_byId db i = Some j -> job_id j = i.
Proof.
  unfold Job_byId. intros H. apply find_some in H.
  now apply Z.eqb_eq.
Qed.

Lemma Profile_byId_increment (db : DB) (k k' : Z) (amount : Q) :
  Profile_byId (Profile_increment k amount db) k'
  = if (k' =? k)%Z
    then option_map (fun p => set_balance p (balance p + amount)) (Profile_byId db k')
    else Profile_byId db k'.
Proof.
  unfold Profile_byId, Profile_increment. simpl.
  apply (find_after_update profile_id (fun p => set_balance p (balance p + amount))).
  reflexivity.
Qed.

Lemma Profile_byId_decrement (db : DB) (k k' : Z) (amount : Q) :
  Profile_byId (Profile_decrement k amount db) k'
  = if (k' =? k)%Z
    then option_map (fun p => set_balance p (balance p - amount)) (Profile_byId db k')
    else Profile_byId db k'.
Proof.
  unfold Profile_byId, Profile_decrement. simpl.
  apply (find_after_update profile_id (fun p => set_balance p (balance p - amount))).
  reflexivity.
Qed.

Lemma Job_byId_update_paid (db : DB) (k k' now : Z) :
  Job_byId (Job_update_paid k now db) k'
  = if (k' =? k)%Z
    then option_map (fun j => {| job_id := job_id j; price := price j;
                                 paid := Bool true; paymentDate := Some now;
                                 ContractId := ContractId j |})
                    (Job_byId db k')
    else Job_byId db k'.
Proof.
  unfold Job_byId, Job_update_paid. simpl.
  apply (find_after_update job_id
           (fun j => {| job_id := job_id j; price := price j; paid := Bool true;
                        paymentDate := Some now; ContractId := ContractId j |})).
  reflexivity.
Qed.

(** What a 201 of the pay handler means: the lookup found the job, both
    profiles were joined in, and the three writes were committed. *)
Lemma payJob_201 (now : Z) (profile : Profile) (jobId : Z) (db : DB)
    (resp : Response) (db' : DB) (queries : list Query) :
  payJob now profile jobId db = (resp, db', queries) ->
  res_status resp = 201%Z ->
  exists (job : Job) (c : Contract) (client contractor : Profile),
    Job_byId db jobId = Some job /\
    Contract_byId db (ContractId job) = Some c /\
    ClientId c = profile_id profile /\
    Profile_byId db (ClientId c) = Some client /\
    Profile_byId db (ContractorId c) = Some contractor /\
    queries = [SelectJob jobId (profile_id profile); RunTransaction] /\
    db' = Profile_increment (ContractorId c) (price job)
            (Profile_decrement (ClientId c) (price job)
               (Job_update_paid jobId now db)).
Proof.
  unfold payJob. intros Hrun Hstatus.
  destruct (validateJobClientType (profile_type profile)) as [[]|e] eqn:Erole.
  2:{ exfalso. unfold validateJobClientType, throwHttpError in Erole.
      destruct (negb _); [|discriminate].
      injection Erole as <-. injection Hrun as <- _ _. discriminate. }
  destruct (validatePayJob _) as [[]|e] eqn:Echeck.
  2:{ exfalso. unfold validatePayJob, throwHttpError in Echeck.
      injection Hrun as <- _ _.
      destruct (Job_findOne _ _ _) as [jj|]; [|injection Echeck as <-; discriminate].
      destruct (truthy _); [injection Echeck as <-; discriminate|].
      destruct (Client _); [|injection Echeck as <-; discriminate].
      destruct (gt _ _); [injection Echeck as <-; discriminate | discriminate]. }
  unfold Job_findOne in *.
  destruct (Job_byId db jobId) as [job|] eqn:Ejob; [|discriminate].
  destruct (Contract_byId db (ContractId job)) as [c|] eqn:Ec; [|discriminate].
  destruct ((ClientId c =? profile_id profile)%Z && status_active c) eqn:Eguard;
    [|discriminate].
  apply andb_true_iff in Eguard. destruct Eguard as [Ecaller _].
  apply Z.eqb_eq in Ecaller.
  unfold transaction, payTransaction in Hrun. simpl in Hrun.
  destruct (Profile_byId db (ClientId c)) as [client|] eqn:Eclient.
  2:{ exfalso. injection Hrun as <- _ _. discriminate. }
  destruct (Profile_byId db (ContractorId c)) as [contractor|] eqn:Econtractor.
  2:{ exfalso. injection Hrun as <- _ _. discriminate. }
  injection Hrun as _ <- <-.
  exists job, c, client, contractor.
  rewrite (Profile_byId_id _ _ _ Eclient), (Profile_byId_id _ _ _ Econtractor).
  rewrite (Job_byId_id _ _ _ Ejob).
  repeat split; try assumption; reflexivity.
Qed.

(** C1: in a database whose contracts have two distinct parties, whenever the
    pay handler answers 201 for a job of price A, the client's balance is
    lowered by exactly A and the contractor's raised by exactly A, so that
    their sum is kept, and the job row is left with [paid = true] and a
    payment date (the time of the payment); all of it is the one committed
    transaction. *)
Theorem payJob_moves_the_price
    (now : Z) (profile : Profile) (jobId : Z) (db : DB)
    (resp : Response) (db' : DB) (queries : list Query) :
  distinct_parties db ->
  payJob now profile jobId db = (resp, db', queries) ->
  res_status resp = 201%Z ->
  exists (job : Job) (c : Contract) (client contractor : Profile)
         (job' : Job) (client' contractor' : Profile),
    Job_byId db jobId = Some job /\
    Contract_byId db (ContractId job) = Some c /\
    Profile_byId db (ClientId c) = Some client /\
    Profile_byId db (ContractorId c) = Some contractor /\
    Profile_byId db' (ClientId c) = Some client' /\
    balance client' = balance client - price job /\
    Profile_byId db' (ContractorId c) = Some contractor' /\
    balance contractor' = balance contractor + price job /\
    balance client' + balance contractor' == balance client + balance contractor /\
    Job_byId db' jobId = Some job' /\
    paid job' = Bool true /\
    paymentDate job' = Some now /\
    price job' = price job /\
    queries = [SelectJob jobId (profile_id profile); RunTransaction].
Proof.
  intros Hdistinct Hrun Hstatus.
  destruct (payJob_201 _ _ _ _ _ _ _ Hrun Hstatus)
    as (job & c & client & contractor & Ejob & Ec & _ & Eclient & Econtractor
        & -> & ->).
  assert (Hne : ClientId c <> ContractorId c).
  { apply Hdistinct. unfold Contract_byId in Ec. now apply find_some in Ec. }
  assert (E1 : (ClientId c =? ContractorId c)%Z = false) by now apply Z.eqb_neq.
  assert (E2 : (ContractorId c =? ClientId c)%Z = false)
    by (apply Z.eqb_neq; congruence).
  assert (Hp : forall k, Profile_byId (Job_update_paid jobId now db) k
                         = Profile_byId db k) by reflexivity.
  assert (Hj : forall d k a i, Job_byId (Profile_increment k a d) i = Job_byId d i)
    by reflexivity.
  assert (Hj' : forall d k a i, Job_byId (Profile_decrement k a d) i = Job_byId d i)
    by reflexivity.
  exists job, c, client, contractor.
  rewrite Hj, Hj', Job_byId_update_paid, Z.eqb_refl, Ejob.
  rewrite !Profile_byId_increment, !Profile_byId_decrement, !Z.eqb_refl, E1, E2, !Hp,
    Eclient, Econtractor.
  simpl. do 3 eexists.
  repeat (split; [first [assumption | reflexivity]|]).
  split; [simpl; ring|].
  repeat split.
Qed.

Lemma payJob_moves_the_price_witness :
  exists (job : Job) (c : Contract) (client contractor : Profile)
         (job' : Job) (client' contractor' : Profile),
    Job_byId Fixtures.scenario 3 = Some job /\
    Contract_byId Fixtures.scenario (ContractId job) = Some c /\
    Profile_byId Fixtures.scenario (ClientId c) = Some client /\
    Profile_byId Fixtures.scenario (ContractorId c) = Some contractor /\
    Profile_byId (snd (fst (payJob 99 Fixtures.clientA 3 Fixtures.scenario)))
                 (ClientId c) = Some client' /\
    balance client' = balance client - price job /\
    Profile_byId (snd (fst (payJob 99 Fixtures.clientA 3 Fixtures.scenario)))
                 (ContractorId c) = Some contractor' /\
    balance contractor' = balance contractor + price job /\
    balance client' + balance contractor' == balance client + balance contractor /\
    Job_byId (snd (fst (payJob 99 Fixtures.clientA 3 Fixtures.scenario))) 3
    = Some job' /\
    paid job' = Bool true /\
    paymentDate job' = Some 99%Z /\
    price job' = price job /\
    snd (payJob 99 Fixtures.clientA 3 Fixtures.scenario)
    = [SelectJob 3 (profile_id Fixtures.clientA); RunTransaction].
Proof.
  apply (payJob_moves_the_price 99 Fixtures.clientA 3 Fixtures.scenario
           (fst (fst (payJob 99 Fixtures.clientA 3 Fixtures.scenario)))
           (snd (fst (payJob 99 Fixtures.clientA 3 Fixtures.scenario)))
           (snd (payJob 99 Fixtures.clientA 3 Fixtures.scenario))).
  - intros c [<-|[]]. discriminate.
  - reflexivity.
  - reflexivity.
Defined.

(** The end-to-end scenario of the specification: 201, A at 700, B at 500,
    the job paid. *)
Example payJob_scenario :
  payJob 99 Fixtures.clientA 3 Fixtures.scenario
  = ({| res_status := 201%Z; res_body := NoBody |},
     {| db_Profiles := [set_balance Fixtures.clientA 700;
                        set_balance Fixtures.contractorB 500];
        db_Contracts := db_Contracts Fixtures.scenario;
        db_Jobs := [ {| job_id := 3; price := 300; paid := Bool true;
                        paymentDate := Some 99%Z; ContractId := 7 |} ] |},
     [SelectJob 3 10; RunTransaction]).
Proof. reflexivity. Qed.

(** When one profile is on both sides of the contract the two writes cancel:
    the handler answers 201 and the balance is what it was. *)
Example payJob_same_profile_on_both_sides :
  res_status (fst (fst (payJob 99 Fixtures.clientA 3 Fixtures.selfContract))) = 201%Z /\
  Profile_byId (snd (fst (payJob 99 Fixtures.clientA 3 Fixtures.selfContract))) 10
  = Some Fixtures.clientA.
Proof. split; reflexivity. Qed.

(** ** Date-range validation *)

Section AnyDateCheck.

Variable isValid : string -> bool.

Lemma validateDates_Ok_iff (dates : list string) :
  validateDates isValid dates = Ok tt <-> Forall (fun s => isValid s = true) dates.
Proof.
  induction dates as [|s dates IH]; simpl.
  - split; [constructor | reflexivity].
  - destruct (isValid s) eqn:E; simpl.
    + rewrite IH. split.
      * intros H. now constructor.
      * intros H. now inversion H.
    + split; [discriminate|].
      intros H. inversion H. congruence.
Qed.

(** The error names the first string that fails the check. *)
Lemma validateDates_Throw (dates : list string) (e : exn) :
  validateDates isValid dates = Throw e ->
  exists (before : list string) (date : string) (after : list string),
    dates = (before ++ date :: after)%list /\
    Forall (fun s => isValid s = true) before /\
    isValid date = false /\
    e = HttpError 400 ("Invalid date: " ++ date).
Proof.
  induction dates as [|s dates IH]; simpl.
  - discriminate.
  - destruct (isValid s) eqn:E; simpl.
    + intros H. destruct (IH H) as (before & date & after & -> & Hb & Hd & He).
      exists (s :: before), date, after. repeat split; try assumption.
      now constructor.
    + intros H. injection H as <-.
      exists [], s, dates. repeat split; [constructor | assumption].
Qed.

End AnyDateCheck.

Module StrictDateFacts.

Import StrictDate.
Local Open Scope Z_scope.

Lemma digit_value_range (c : ascii) :
  is_digit c = true -> 0 <= digit_value c <= 9.
Proof.
  unfold is_digit, digit_value. intros H.
  apply andb_true_iff in H. destruct H as [H1 H2].
  apply Z.leb_le in H1, H2. lia.
Qed.

Lemma digit_char_value (c : ascii) :
  is_digit c = true -> digit_char (digit_value c) = c.
Proof.
  destruct c as [[] [] [] [] [] [] [] []]; intros H;
    solve [discriminate H | reflexivity].
Qed.

Lemma digit_char_mod (n k : Z) : n mod 10 = k -> digit_char n = digit_char k.
Proof.
  intros <-. unfold digit_char. now rewrite Z.mod_mod by lia.
Qed.

Lemma mod10_cases (n : Z) :
  In (n mod 10) [0; 1; 2; 3; 4; 5; 6; 7; 8; 9].
Proof.
  pose proof (Z.mod_pos_bound n 10 ltac:(lia)) as H. simpl.
  assert (n mod 10 = 0 \/ n mod 10 = 1 \/ n mod 10 = 2 \/ n mod 10 = 3 \/
          n mod 10 = 4 \/ n mod 10 = 5 \/ n mod 10 = 6 \/ n mod 10 = 7 \/
          n mod 10 = 8 \/ n mod 10 = 9) as C by lia.
  intuition auto.
Qed.

Lemma digit_char_is_digit (n : Z) :
  is_digit (digit_char n) = true /\ digit_value (digit_char n) = n mod 10.
Proof.
  unfold digit_char. pose proof (mod10_cases n) as H. simpl in H.
  destruct H as [E|[E|[E|[E|[E|[E|[E|[E|[E|[E|[]]]]]]]]]]];
    rewrite <- E; split; reflexivity.
Qed.

Lemma digit_char_of (c : ascii) (n : Z) :
  is_digit c = true -> n mod 10 = digit_value c -> c = digit_char n.
Proof.
  intros D E. rewrite (digit_char_mod n (digit_value c) E).
  symmetry. now apply digit_char_value.
Qed.

Lemma four_digits (a b c d : Z) :
  0 <= a <= 9 -> 0 <= b <= 9 -> 0 <= c <= 9 -> 0 <= d <= 9 ->
  let y := 1000 * a + 100 * b + 10 * c + d in
  (y / 1000) mod 10 = a /\ (y / 100) mod 10 = b /\ (y / 10) mod 10 = c /\
  y mod 10 = d /\ 0 <= y <= 9999.
Proof.
  intros Ha Hb Hc Hd y. subst y.
  repeat split; try lia; Z.div_mod_to_equations; lia.
Qed.

Lemma two_digits (a b : Z) :
  0 <= a <= 9 -> 0 <= b <= 9 ->
  ((10 * a + b) / 10) mod 10 = a /\ (10 * a + b) mod 10 = b.
Proof.
  intros Ha Hb. split; Z.div_mod_to_equations; lia.
Qed.

(** A string the check accepts is the text of the date it reads. *)
Lemma isValid_format (s : string) :
  isValid s = true -> strict_YYYY_MM_DD s.
Proof.
  unfold isValid. intros H.
  rewrite <- (string_of_list_ascii_of_string s).
  destruct (list_ascii_of_string s)
    as [|y1 [|y2 [|y3 [|y4 [|s1 [|m1 [|m2 [|s2 [|d1 [|d2 [|x l]]]]]]]]]]];
    try discriminate H.
  apply andb_true_iff in H. destruct H as [H Hcal].
  apply andb_true_iff in H. destruct H as [H Hs2].
  apply andb_true_iff in H. destruct H as [Hdigits Hs1].
  apply Ascii.eqb_eq in Hs1, Hs2. subst s1 s2.
  cbn [forallb] in Hdigits. rewrite !andb_true_iff in Hdigits.
  destruct Hdigits as (Y1 & Y2 & Y3 & Y4 & M1 & M2 & D1 & D2 & _).
  destruct (four_digits _ _ _ _ (digit_value_range _ Y1) (digit_value_range _ Y2)
              (digit_value_range _ Y3) (digit_value_range _ Y4))
    as (Ey1 & Ey2 & Ey3 & Ey4 & Hy).
  destruct (two_digits _ _ (digit_value_range _ M1) (digit_value_range _ M2))
    as (Em1 & Em2).
  destruct (two_digits _ _ (digit_value_range _ D1) (digit_value_range _ D2))
    as (Ed1 & Ed2).
  exists (1000 * digit_value y1 + 100 * digit_value y2
          + 10 * digit_value y3 + digit_value y4),
         (10 * digit_value m1 + digit_value m2),
         (10 * digit_value d1 + digit_value d2).
  split; [exact Hy|]. split; [exact Hcal|].
  unfold format.
  rewrite <- (digit_char_of y1 _ Y1 Ey1), <- (digit_char_of y2 _ Y2 Ey2),
    <- (digit_char_of y3 _ Y3 Ey3), <- (digit_char_of y4 _ Y4 Ey4),
    <- (digit_char_of m1 _ M1 Em1), <- (digit_char_of m2 _ M2 Em2),
    <- (digit_char_of d1 _ D1 Ed1), <- (digit_char_of d2 _ D2 Ed2).
  reflexivity.
Qed.

(** The text of a calendar date of the years 0000 to 9999 is accepted. *)
Lemma format_isValid (y m d : Z) :
  0 <= y <= 9999 -> calendar_date y m d = true -> isValid (format y m d) = true.
Proof.
  intros Hy Hcal. unfold isValid, format.
  rewrite list_ascii_of_string_of_list_ascii.
  cbn [forallb].
  rewrite !(proj1 (digit_char_is_digit _)), !(proj2 (digit_char_is_digit _)).
  unfold dash. rewrite Ascii.eqb_refl. cbn [andb].
  assert (Hm : 1 <= m <= 12 /\ 1 <= d <= 31).
  { unfold calendar_date in Hcal. rewrite !andb_true_iff, !Z.leb_le in Hcal.
    assert (days_in_month y m <= 31).
    { unfold days_in_month.
      repeat match goal with |- context [if ?b then _ else _] => destruct b end; lia. }
    lia. }
  replace (1000 * ((y / 1000) mod 10) + 100 * ((y / 100) mod 10)
           + 10 * ((y / 10) mod 10) + y mod 10) with y
    by (Z.div_mod_to_equations; lia).
  replace (10 * ((m / 10) mod 10) + m mod 10) with m
    by (Z.div_mod_to_equations; lia).
  replace (10 * ((d / 10) mod 10) + d mod 10) with d
    by (Z.div_mod_to_equations; lia).
  exact Hcal.
Qed.

Lemma isValid_iff (s : string) : isValid s = true <-> strict_YYYY_MM_DD s.
Proof.
  split.
  - apply isValid_format.
  - intros (y & m & d & Hy & Hcal & ->). now apply format_isValid.
Qed.

End StrictDateFacts.

(** C6: with the strict date check, date-range validation passes exactly when
    every string of the sequence is a calendar date written YYYY-MM-DD
    ("2020-12-31" is, "2020-02-31" and "123456" are not); when it fails, the
    failure is a 400 whose message carries, as it was given, the first string
    of the sequence that is not such a date. *)
Theorem validateDates_strict (dates : list string) :
  (validateDates StrictDate.isValid dates = Ok tt <-> Forall strict_YYYY_MM_DD dates) /\
  (forall e : exn,
      validateDates StrictDate.isValid dates = Throw e ->
      exists (before : list string) (date : string) (after : list string),
        dates = (before ++ date :: after)%list /\
        Forall strict_YYYY_MM_DD before /\
        ~ strict_YYYY_MM_DD date /\
        e = HttpError 400 ("Invalid date: " ++ date)) /\
  (strict_YYYY_MM_DD "2020-12-31" /\
   ~ strict_YYYY_MM_DD "2020-02-31" /\
   ~ strict_YYYY_MM_DD "123456").
Proof.
  assert (Hall : forall l : list string,
             Forall (fun s => StrictDate.isValid s = true) l
             <-> Forall strict_YYYY_MM_DD l).
  { intros l. rewrite !Forall_forall. split; intros H s Hs.
    - apply StrictDateFacts.isValid_iff. now apply H.
    - apply StrictDateFacts.isValid_iff. now apply H. }
  split; [|split].
  - rewrite validateDates_Ok_iff. apply Hall.
  - intros e He.
    destruct (validateDates_Throw _ _ _ He) as (before & date & after & E & Hb & Hd & Hm).
    exists before, date, after. repeat split; try assumption.
    + now apply Hall.
    + intros Hstrict. apply StrictDateFacts.isValid_iff in Hstrict. congruence.
  - split; [|split].
    + apply StrictDateFacts.isValid_iff. reflexivity.
    + intros H. apply StrictDateFacts.isValid_iff in H. discriminate H.
    + intros H. apply StrictDateFacts.isValid_iff in H. discriminate H.
Qed.

Lemma validateDates_strict_witness :
  exists (before : list string) (date : string) (after : list string),
    ["2010-01-01"; "2020-02-31"; "123456"] = (before ++ date :: after)%list /\
    Forall strict_YYYY_MM_DD before /\
    ~ strict_YYYY_MM_DD date /\
    HttpError 400 "Invalid date: 2020-02-31" = HttpError 400 ("Invalid date: " ++ date).
Proof.
  apply (validateDates_strict ["2010-01-01"; "2020-02-31"; "123456"]).
  reflexivity.
Defined.

(** ** Best profession *)

Lemma get_set (m : PropertyMap) (k k' : string) (v : Binary64.number) :
  get (set m k v) k' = if String.eqb k k' then Some v else get m k'.
Proof.
  induction m as [|[k0 v0] m IH]; simpl.
  - destruct (String.eqb k k'); reflexivity.
  - destruct (String.eqb k0 k) eqn:E0; simpl.
    + apply String.eqb_eq in E0. subst k0.
      destruct (String.eqb k k'); reflexivity.
    + destruct (String.eqb k0 k') eqn:E1.
      * apply String.eqb_eq in E1. subst k0.
        rewrite String.eqb_sym in E0. now rewrite E0.
      * exact IH.
Qed.

Lemma set_not_nil (m : PropertyMap) (k : string) (v : Binary64.number) : set m k v <> [].
Proof.
  destruct m as [|[k0 v0] m]; simpl; [discriminate|].
  destruct (String.eqb k0 k); discriminate.
Qed.

(** After [users.forEach] has seen a user, the user's profession is a
    property: the value it had (taken as [0] when missing or falsy) plus the
    user's sum. *)
Lemma addUser_spec (m : PropertyMap) (user : ProfileWithContracts) :
  addUser m user
  = set (if falsy_at m (profession (pc_profile user))
         then set m (profession (pc_profile user)) Binary64.zero else m)
        (profession (pc_profile user))
        (addShare (amount_at m (profession (pc_profile user))) user).
Proof.
  unfold addUser, falsy_at, amount_at, addShare, Binary64.or_zero.
  destruct (get m (profession (pc_profile user))) as [x|] eqn:E.
  - destruct (Binary64.truthy x) eqn:T; cbn [negb].
    + now rewrite E.
    + now rewrite get_set, String.eqb_refl.
  - now rewrite get_set, String.eqb_refl.
Qed.

Lemma addUser_not_nil (m : PropertyMap) (user : ProfileWithContracts) :
  addUser m user <> [].
Proof.
  rewrite addUser_spec. apply set_not_nil.
Qed.

Lemma forEach_addUser_not_nil (users : list ProfileWithContracts) (m : PropertyMap) :
  users <> [] -> fold_left addUser users m <> [].
Proof.
  revert m. induction users as [|u users IH]; intros m H; [congruence|].
  simpl. destruct users as [|u' users].
  - simpl. apply addUser_not_nil.
  - apply IH. discriminate.
Qed.

Lemma insert_length {A : Type} (before : A -> A -> bool) (x : A) (l : list A) :
  length (insert before x l) = S (length l).
Proof.
  induction l as [|y l IH]; simpl; [reflexivity|].
  destruct (before x y); simpl; [reflexivity | now rewrite IH].
Qed.

Lemma sort_length {A : Type} (before : A -> A -> bool) (l : list A) :
  length (sort before l) = length l.
Proof.
  unfold sort.
  assert (H : forall acc, length (fold_left (fun acc x => insert before x acc) l acc)
                          = (length acc + length l)%nat).
  { induction l as [|x l IH]; intros acc; simpl; [lia|].
    rewrite IH, insert_length. lia. }
  now rewrite H.
Qed.

(** [Object.keys] lists every property once. *)
Lemma Object_keys_length (m : PropertyMap) : length (Object_keys m) = length m.
Proof.
  unfold Object_keys.
  rewrite length_app, length_map, sort_length.
  induction m as [|[k v] m IH]; simpl; [reflexivity|].
  destruct (array_index k); simpl; lia.
Qed.

Lemma amount_at_addUser (m : PropertyMap) (user : ProfileWithContracts) (k : string) :
  amount_at (addUser m user) k
  = if String.eqb (profession (pc_profile user)) k
    then addShare (amount_at m k) user
    else amount_at m k.
Proof.
  rewrite addUser_spec. unfold amount_at at 1. rewrite get_set.
  destruct (String.eqb (profession (pc_profile user)) k) eqn:E.
  - apply String.eqb_eq in E. now subst k.
  - destruct (falsy_at m (profession (pc_profile user))).
    + now rewrite get_set, E.
    + reflexivity.
Qed.

(** After [users.forEach] the map holds, for each profession, the sums of
    the contractors of that profession added up in fetch order. *)
Lemma amount_at_forEach (users : list ProfileWithContracts) (m : PropertyMap)
    (k : string) :
  amount_at (fold_left addUser users m) k
  = fold_left addShare
              (filter (fun u => String.eqb (profession (pc_profile u)) k) users)
              (amount_at m k).
Proof.
  revert m. induction users as [|u users IH]; intros m; simpl; [reflexivity|].
  rewrite IH, amount_at_addUser.
  destruct (String.eqb (profession (pc_profile u)) k); reflexivity.
Qed.

Lemma amount_at_professionSum (users : list ProfileWithContracts) (k : string) :
  amount_at (fold_left addUser users []) k = professionSum users k.
Proof.
  apply amount_at_forEach.
Qed.

(** With at least one contractor and no profession paid more than 0 in the
    range, the report is the fallback text. *)
Lemma bestProfession_nothing_paid
    (isValid : string -> bool) (start end_ : string)
    (users : list ProfileWithContracts) :
  validateDates isValid [start; end_] = Ok tt ->
  users <> [] ->
  own_names users ->
  (forall p : string, Binary64.gt (professionSum users p) Binary64.zero = false) ->
  bestProfession isValid start end_ users
  = {| res_status := 200%Z; res_body := JsonString noProfessions |}.
Proof.
  intros Hdates Hne _ Hsum. unfold bestProfession. rewrite Hdates.
  set (m := fold_left addUser users []).
  assert (Hkeys : Object_keys m <> []).
  { intros E. apply (forEach_addUser_not_nil users [] Hne).
    apply length_zero_iff_nil. rewrite <- Object_keys_length.
    fold m. now rewrite E. }
  destruct (Object_keys m) as [|k keys]; [congruence|]. simpl.
  assert (Hnot : forall a, positive_at m a = false).
  { intros a. unfold positive_at.
    pose proof (amount_at_professionSum users a) as Ha. fold m in Ha.
    unfold amount_at in Ha.
    destruct (get m a) as [x|]; [|reflexivity].
    rewrite Ha. apply Hsum. }
  now rewrite Hnot.
Qed.

Example bestProfession_nothing_paid_example :
  bestProfession StrictDate.isValid "2020-01-01" "2020-12-31"
    [ {| pc_profile := Fixtures.linus; pc_Client := []; pc_Contractor := [] |} ]
  = {| res_status := 200%Z; res_body := JsonString noProfessions |}.
Proof. vm_compute. reflexivity. Qed.

(** Without any contractor the property list is empty and [reduce], called
    without an initial value, throws: the response is a 500. *)
Lemma bestProfession_no_users
    (isValid : string -> bool) (start end_ : string) :
  validateDates isValid [start; end_] = Ok tt ->
  bestProfession isValid start end_ []
  = {| res_status := 500%Z;
       res_body := Message "Reduce of empty array with no initial value" |}.
Proof.
  intros Hdates. unfold bestProfession. now rewrite Hdates.
Qed.

(** C7 (at the input where the code departs from it): for a valid range and
    no contractor profile at all, the best-profession report is not the
    fallback text but a 500 carrying the TypeError of [reduce]. *)
Theorem bestProfession_without_contractors :
  bestProfession StrictDate.isValid "2020-01-01" "2020-12-31" []
  = {| res_status := 500%Z;
       res_body := Message "Reduce of empty array with no initial value" |} /\
  bestProfession StrictDate.isValid "2020-01-01" "2020-12-31" []
  <> {| res_status := 200%Z; res_body := JsonString noProfessions |}.
Proof.
  split.
  - apply bestProfession_no_users. reflexivity.
  - rewrite bestProfession_no_users by reflexivity. discriminate.
Qed.

Example bestProfession_highest_sum :
  bestProfession StrictDate.isValid "2020-01-01" "2020-12-31"
    [ {| pc_profile := Fixtures.linus; pc_Client := [];
         pc_Contractor := [ {| cj_contract := Fixtures.contract2;
                               Jobs := [Fixtures.paidJob 1 100] |} ] |};
      {| pc_profile := Fixtures.contractorB; pc_Client := [];
         pc_Contractor := [ {| cj_contract := Fixtures.contract1;
                               Jobs := [Fixtures.paidJob 2 60; Fixtures.paidJob 3 70] |} ] |} ]
  = {| res_status := 200%Z; res_body := JsonString "Builder" |}.
Proof. vm_compute. reflexivity. Qed.

(** ** Best clients *)

Lemma insert_Permutation {A : Type} (before : A -> A -> bool) (x : A) (l : list A) :
  Permutation (insert before x l) (x :: l).
Proof.
  induction l as [|y l IH]; simpl; [reflexivity|].
  destruct (before x y); [reflexivity|].
  rewrite IH. apply perm_swap.
Qed.

Lemma sort_Permutation {A : Type} (before : A -> A -> bool) (l : list A) :
  Permutation (sort before l) l.
Proof.
  unfold sort.
  assert (H : forall acc,
             Permutation (fold_left (fun acc x => insert before x acc) l acc)
                         (acc ++ l)%list).
  { induction l as [|x l IH]; intros acc; simpl.
    - now rewrite app_nil_r.
    - rewrite IH, insert_Permutation. apply Permutation_middle. }
  apply (H []).
Qed.

Lemma insert_paidDescending (x : BestClient) (l : list BestClient) :
  StronglySorted paidDescending l ->
  StronglySorted paidDescending (insert paidBefore x l).
Proof.
  induction 1 as [|y l Hsorted IH Hy]; simpl.
  - constructor; constructor.
  - unfold paidBefore. destruct (Binary64.gt (bc_paid x) (bc_paid y)) eqn:E.
    + constructor.
      * now constructor.
      * constructor.
        -- unfold paidDescending. now apply Binary64Facts.gt_asym.
        -- apply Forall_forall. intros z Hz.
           rewrite Forall_forall in Hy. specialize (Hy z Hz).
           unfold paidDescending in *.
           exact (Binary64Facts.not_gt_lt_trans _ _ _ Hy E).
    + constructor; [exact IH|].
      apply Forall_forall. intros z Hz.
      apply (Permutation_in _ (insert_Permutation paidBefore x l)) in Hz.
      destruct Hz as [<-|Hz]; [exact E|].
      rewrite Forall_forall in Hy. now apply Hy.
Qed.

Lemma sort_paidDescending (l : list BestClient) :
  StronglySorted paidDescending (sort paidBefore l).
Proof.
  unfold sort.
  assert (H : forall acc,
             StronglySorted paidDescending acc ->
             StronglySorted paidDescending
               (fold_left (fun acc x => insert paidBefore x acc) l acc)).
  { induction l as [|x l IH]; intros acc Hacc; simpl; [exact Hacc|].
    apply IH. now apply insert_paidDescending. }
  apply H. constructor.
Qed.

Lemma slice0_firstn {A : Type} (l : list A) (n : Z) :
  (0 <= n)%Z -> slice0 l n = firstn (Z.to_nat n) l.
Proof.
  intros Hn. unfold slice0.
  destruct (n <? 0)%Z eqn:E; [apply Z.ltb_lt in E; lia|].
  destruct (Z.le_gt_cases n (Z.of_nat (length l))) as [Hle|Hgt].
  - now rewrite Z.min_l.
  - rewrite Z.min_r by lia. rewrite Nat2Z.id.
    rewrite firstn_all. symmetry. apply firstn_all2. lia.
Qed.

(** C8: for a valid range and a result count N (2 when the parameter is
    absent), the best-clients report is the first N entries of the clients'
    entries arranged by descending paid sum (no entry is followed by one with
    a greater sum); an entry has the client's id, the first and last name
    joined by one space, and as paid sum the sum the code computes, as
    JavaScript numbers, of the prices of the client's loaded jobs, contract
    by contract. *)
Theorem bestClients_top_N
    (isValid : string -> bool) (start end_ : string) (limit : option nat)
    (users : list ProfileWithContracts) :
  validateDates isValid [start; end_] = Ok tt ->
  let N := match limit with Some n => n | None => 2%nat end in
  exists ranked : list BestClient,
    Permutation ranked (map toBestClient users) /\
    StronglySorted (fun a b => Binary64.gt (bc_paid b) (bc_paid a) = false) ranked /\
    bestClients isValid start end_ (option_map Z.of_nat limit) users
    = {| res_status := 200%Z; res_body := JsonClients (firstn N ranked) |} /\
    (forall user : ProfileWithContracts,
        id (toBestClient user) = profile_id (pc_profile user) /\
        fullName (toBestClient user)
        = firstName (pc_profile user) ++ " " ++ lastName (pc_profile user) /\
        bc_paid (toBestClient user)
        = Binary64.sum
            (map (fun c =>
                    Binary64.sum
                      (map (fun j => Binary64.or_zero (Binary64.Number (price j)))
                           (Jobs c)))
                 (pc_Client user))).
Proof.
  intros Hdates N.
  exists (sort paidBefore (map toBestClient users)).
  split; [apply sort_Permutation|].
  split; [apply sort_paidDescending|].
  split.
  - unfold bestClients. rewrite Hdates.
    rewrite slice0_firstn by (destruct limit; simpl; lia).
    subst N. destruct limit; simpl; [now rewrite Nat2Z.id | reflexivity].
  - intros user. repeat split. apply paidJobsSum_spec.
Qed.

Lemma bestClients_top_N_witness :
  exists ranked : list BestClient,
    Permutation ranked (map toBestClient Fixtures.threeClients) /\
    StronglySorted (fun a b => Binary64.gt (bc_paid b) (bc_paid a) = false) ranked /\
    bestClients StrictDate.isValid "2020-01-01" "2020-12-31" (Some 1%Z)
      Fixtures.threeClients
    = {| res_status := 200%Z; res_body := JsonClients (firstn 1 ranked) |} /\
    (forall user : ProfileWithContracts,
        id (toBestClient user) = profile_id (pc_profile user) /\
        fullName (toBestClient user)
        = firstName (pc_profile user) ++ " " ++ lastName (pc_profile user) /\
        bc_paid (toBestClient user)
        = Binary64.sum
            (map (fun c =>
                    Binary64.sum
                      (map (fun j => Binary64.or_zero (Binary64.Number (price j)))
                           (Jobs c)))
                 (pc_Client user))).
Proof.
  apply (bestClients_top_N StrictDate.isValid "2020-01-01" "2020-12-31" (Some 1%nat)
           Fixtures.threeClients).
  reflexivity.
Defined.

(** The example of the specification: paid sums 500, 300 and 0. *)
Example bestClients_default_limit :
  bestClients StrictDate.isValid "2020-01-01" "2020-12-31" None Fixtures.threeClients
  = {| res_status := 200%Z;
       res_body := JsonClients [ {| id := 2; fullName := "Mr Robot";
                                    bc_paid := Binary64.Number 500 |};
                                 {| id := 3; fullName := "John Snow";
                                    bc_paid := Binary64.Number 300 |} ] |}.
Proof. vm_compute. reflexivity. Qed.

Example bestClients_limit_1 :
  bestClients StrictDate.isValid "2020-01-01" "2020-12-31" (Some 1%Z)
    Fixtures.threeClients
  = {| res_status := 200%Z;
       res_body := JsonClients [ {| id := 2; fullName := "Mr Robot";
                                    bc_paid := Binary64.Number 500 |} ] |}.
Proof. vm_compute. reflexivity. Qed.

(** A negative limit is taken from the end of the array. *)
Example bestClients_negative_limit :
  bestClients StrictDate.isValid "2020-01-01" "2020-12-31" (Some (-1)%Z)
    Fixtures.threeClients
  = {| res_status := 200%Z;
       res_body := JsonClients [ {| id := 2; fullName := "Mr Robot";
                                    bc_paid := Binary64.Number 500 |};
                                 {| id := 3; fullName := "John Snow";
                                    bc_paid := Binary64.Number 300 |} ] |}.
Proof. vm_compute. reflexivity. Qed.

(** The paid sums are what JavaScript computes.  0.1 + 0.2 is
    0.30000000000000004, above the number read from 0.3: client A, who paid
    0.1 and 0.2, is ranked before client B, who paid 0.3. *)
Example bestClients_rounding :
  bestClients StrictDate.isValid "2020-01-01" "2020-12-31" None cents
  = {| res_status := 200%Z;
       res_body :=
         JsonClients [ {| id := 2; fullName := "A Client";
                          bc_paid := S754_finite false 5404319552844596 (-54) |};
                       {| id := 1; fullName := "B Client";
                          bc_paid := S754_finite false 5404319552844595 (-54) |} ] |}.
Proof. vm_compute. reflexivity. Qed.

(** * Further properties of the handlers *)

Import Reads.

(** ** Paying a job: when it succeeds, and what it leaves alone *)

Lemma status_active_iff (c : Contract) :
  status_active c = true <-> status c = "new" \/ status c = "in_progress".
Proof.
  unfold status_active. rewrite orb_true_iff, !String.eqb_eq. reflexivity.
Qed.

(** Everything a 201 of the pay handler implies. *)
Lemma payJob_201_inv (now : Z) (profile : Profile) (jobId : Z) (db : DB)
    (resp : Response) (db' : DB) (queries : list Query) :
  payJob now profile jobId db = (resp, db', queries) ->
  res_status resp = 201%Z ->
  exists (job : Job) (c : Contract) (client contractor : Profile),
    profile_type profile = "client" /\
    Job_byId db jobId = Some job /\
    Contract_byId db (ContractId job) = Some c /\
    ClientId c = profile_id profile /\
    status_active c = true /\
    Profile_byId db (ClientId c) = Some client /\
    Profile_byId db (ContractorId c) = Some contractor /\
    truthy (paid job) = false /\
    price job <= balance client /\
    resp = {| res_status := 201%Z; res_body := NoBody |} /\
    queries = [SelectJob jobId (profile_id profile); RunTransaction] /\
    db' = Profile_increment (ContractorId c) (price job)
            (Profile_decrement (ClientId c) (price job)
               (Job_update_paid jobId now db)).
Proof.
  unfold payJob. intros Hrun Hstatus.
  destruct (validateJobClientType (profile_type profile)) as [[]|e] eqn:Erole.
  2:{ exfalso. unfold validateJobClientType, throwHttpError in Erole.
      destruct (negb _); [|discriminate].
      injection Erole as <-. injection Hrun as <- _ _. discriminate. }
  assert (Htype : profile_type profile = "client").
  { unfold validateJobClientType in Erole.
    destruct (String.eqb (profile_type profile) "client") eqn:E; [|discriminate].
    now apply String.eqb_eq. }
  destruct (validatePayJob _) as [[]|e] eqn:Echeck.
  2:{ exfalso. unfold validatePayJob, throwHttpError in Echeck.
      injection Hrun as <- _ _.
      destruct (Job_findOne _ _ _) as [jj|]; [|injection Echeck as <-; discriminate].
      destruct (truthy _); [injection Echeck as <-; discriminate|].
      destruct (Client _); [|injection Echeck as <-; discriminate].
      destruct (gt _ _); [injection Echeck as <-; discriminate | discriminate]. }
  unfold Job_findOne in *.
  destruct (Job_byId db jobId) as [job|] eqn:Ejob; [|discriminate].
  destruct (Contract_byId db (ContractId job)) as [c|] eqn:Ec; [|discriminate].
  destruct ((ClientId c =? profile_id profile)%Z && status_active c) eqn:Eguard;
    [|discriminate].
  apply andb_true_iff in Eguard. destruct Eguard as [Ecaller Eactive].
  apply Z.eqb_eq in Ecaller.
  unfold transaction, payTransaction in Hrun. simpl in Hrun, Echeck.
  destruct (truthy (paid job)) eqn:Epaid; [discriminate|].
  destruct (Profile_byId db (ClientId c)) as [client|] eqn:Eclient; [|discriminate].
  destruct (gt (price job) (balance client)) eqn:Egt; [discriminate|].
  apply gt_false_iff in Egt.
  destruct (Profile_byId db (ContractorId c)) as [contractor|] eqn:Econtractor.
  2:{ exfalso. injection Hrun as <- _ _. discriminate. }
  injection Hrun as <- <- <-.
  exists job, c, client, contractor.
  rewrite (Profile_byId_id _ _ _ Eclient), (Profile_byId_id _ _ _ Econtractor).
  rewrite (Job_byId_id _ _ _ Ejob).
  repeat split; try assumption; reflexivity.
Qed.

(** The other direction: when the lookup finds the job with both parties,
    the job is unpaid and affordable, a client's request is answered 201. *)
Lemma payJob_succeeds (now : Z) (profile : Profile) (jobId : Z) (db : DB)
    (job : Job) (c : Contract) (client contractor : Profile) :
  profile_type profile = "client" ->
  Job_byId db jobId = Some job ->
  Contract_byId db (ContractId job) = Some c ->
  ClientId c = profile_id profile ->
  status_active c = true ->
  Profile_byId db (ClientId c) = Some client ->
  Profile_byId db (ContractorId c) = Some contractor ->
  truthy (paid job) = false ->
  price job <= balance client ->
  payJob now profile jobId db
  = ({| res_status := 201%Z; res_body := NoBody |},
     Profile_increment (ContractorId c) (price job)
       (Profile_decrement (ClientId c) (price job) (Job_update_paid jobId now db)),
     [SelectJob jobId (profile_id profile); RunTransaction]).
Proof.
  intros Htype Ejob Ec Ecaller Eactive Eclient Econtractor Epaid Hle.
  unfold payJob. rewrite (validateJobClientType_client _ Htype).
  unfold Job_findOne. rewrite Ejob, Ec.
  apply Z.eqb_eq in Ecaller. rewrite Ecaller, Eactive. simpl.
  rewrite Epaid, Eclient. apply gt_false_iff in Hle. rewrite Hle.
  unfold transaction, payTransaction. simpl. rewrite ?Eclient, ?Econtractor.
  rewrite (Profile_byId_id _ _ _ Eclient), (Profile_byId_id _ _ _ Econtractor).
  rewrite (Job_byId_id _ _ _ Ejob). reflexivity.
Qed.

(** X1: the pay handler answers 201 exactly when the caller is a client, the
    job exists, its contract is the caller's and is new or in progress, both
    profiles of the contract exist, the job's [paid] is falsy and its price
    is at most the client's balance. *)
Theorem payJob_201_iff (now : Z) (profile : Profile) (jobId : Z) (db : DB) :
  res_status (fst (fst (payJob now profile jobId db))) = 201%Z <->
  exists (job : Job) (c : Contract) (client contractor : Profile),
    profile_type profile = "client" /\
    Job_byId db jobId = Some job /\
    Contract_byId db (ContractId job) = Some c /\
    ClientId c = profile_id profile /\
    (status c = "new" \/ status c = "in_progress") /\
    Profile_byId db (ClientId c) = Some client /\
    Profile_byId db (ContractorId c) = Some contractor /\
    truthy (paid job) = false /\
    price job <= balance client.
Proof.
  split.
  - intros Hstatus.
    destruct (payJob now profile jobId db) as [[resp db'] queries] eqn:Hrun.
    destruct (payJob_201_inv _ _ _ _ _ _ _ Hrun Hstatus)
      as (job & c & client & contractor & H1 & H2 & H3 & H4 & H5 & H6 & H7 & H8 & H9 & _).
    exists job, c, client, contractor.
    apply status_active_iff in H5. repeat split; assumption.
  - intros (job & c & client & contractor & H1 & H2 & H3 & H4 & H5 & H6 & H7 & H8 & H9).
    apply status_active_iff in H5.
    now rewrite (payJob_succeeds now profile jobId db job c client contractor).
Qed.

Lemma payJob_not_201 (now : Z) (profile : Profile) (jobId : Z) (db : DB) :
  res_status (fst (fst (payJob now profile jobId db))) <> 201%Z ->
  snd (fst (payJob now profile jobId db)) = db.
Proof.
  unfold payJob. intros Hstatus.
  destruct (validateJobClientType (profile_type profile)) as [[]|e]; [|reflexivity].
  destruct (validatePayJob _) as [[]|e]; [|reflexivity].
  unfold transaction in *.
  destruct (payTransaction now _ db) as [d|e]; [|reflexivity].
  simpl in Hstatus. congruence.
Qed.

(** X2: the pay handler answers 201, 400, 403, 404 or 500 and nothing else,
    and whatever it answers other than 201 (a failed check, a transaction
    that threw), the database is left exactly as it was: nothing is applied
    in part. *)
Theorem payJob_failure_leaves_db (now : Z) (profile : Profile) (jobId : Z) (db : DB) :
  In (res_status (fst (fst (payJob now profile jobId db))))
     [201; 400; 403; 404; 500]%Z /\
  (res_status (fst (fst (payJob now profile jobId db))) <> 201%Z ->
   snd (fst (payJob now profile jobId db)) = db).
Proof.
  split; [|apply payJob_not_201].
  unfold payJob, validateJobClientType, validatePayJob, throwHttpError.
  destruct (negb _); [simpl; tauto|].
  destruct (Job_findOne db jobId (profile_id profile)) as [jj|]; [|simpl; tauto].
  destruct (truthy _); [simpl; tauto|].
  destruct (Client _); [|simpl; tauto].
  destruct (gt _ _); [simpl; tauto|].
  destruct (transaction _ _) as [[[]|e] d]; simpl; tauto.
Qed.

Lemma payJob_failure_leaves_db_witness :
  snd (fst (payJob 0 Fixtures.contractorB 3 Fixtures.scenario)) = Fixtures.scenario.
Proof.
  apply (proj2 (payJob_failure_leaves_db 0 Fixtures.contractorB 3 Fixtures.scenario)).
  discriminate.
Defined.

Lemma payJob_201_iff_witness :
  res_status (fst (fst (payJob 99 Fixtures.clientA 3 Fixtures.scenario))) = 201%Z.
Proof.
  apply (proj2 (payJob_201_iff 99 Fixtures.clientA 3 Fixtures.scenario)).
  exists {| job_id := 3; price := 300; paid := Null; paymentDate := None;
            ContractId := 7 |},
         {| contract_id := 7; status := "in_progress"; ClientId := 10;
            ContractorId := 20 |},
         Fixtures.clientA, Fixtures.contractorB.
  repeat split; try reflexivity.
  - right. reflexivity.
  - discriminate.
Defined.

Lemma Job_findOne_found (db : DB) (jobId callerId : Z) (job : Job) (c : Contract) :
  Job_byId db jobId = Some job ->
  Contract_byId db (ContractId job) = Some c ->
  ClientId c = callerId ->
  status_active c = true ->
  Job_findOne db jobId callerId = Some (joinedJob db job c).
Proof.
  intros Ejob Ec Ecaller Eactive. unfold Job_findOne.
  rewrite Ejob, Ec, Eactive. apply Z.eqb_eq in Ecaller. now rewrite Ecaller.
Qed.

Lemma Job_findOne_inv (db : DB) (jobId callerId : Z) (jj : JoinedJob) :
  Job_findOne db jobId callerId = Some jj ->
  exists (job : Job) (c : Contract),
    Job_byId db jobId = Some job /\
    Contract_byId db (ContractId job) = Some c /\
    ClientId c = callerId /\
    status_active c = true /\
    jj = joinedJob db job c.
Proof.
  unfold Job_findOne. intros H.
  destruct (Job_byId db jobId) as [job|]; [|discriminate].
  destruct (Contract_byId db (ContractId job)) as [c|] eqn:Ec; [|discriminate].
  destruct ((ClientId c =? callerId)%Z && status_active c) eqn:E; [|discriminate].
  apply andb_true_iff in E. destruct E as [E1 E2]. apply Z.eqb_eq in E1.
  injection H as <-. exists job, c. repeat split; assumption.
Qed.

(** X3: a job is paid at most once.  After a 201, the same request sent
    again (at any later time) is answered 400 "Job is already paid" and
    changes nothing. *)
Theorem payJob_twice (now later : Z) (profile : Profile) (jobId : Z) (db : DB) :
  res_status (fst (fst (payJob now profile jobId db))) = 201%Z ->
  payJob later profile jobId (snd (fst (payJob now profile jobId db)))
  = ({| res_status := 400%Z; res_body := Message "Job is already paid" |},
     snd (fst (payJob now profile jobId db)),
     [SelectJob jobId (profile_id profile)]).
Proof.
  intros Hstatus.
  destruct (payJob now profile jobId db) as [[resp db'] queries] eqn:Hrun.
  destruct (payJob_201_inv _ _ _ _ _ _ _ Hrun Hstatus)
    as (job & c & client & contractor & Htype & Ejob & Ec & Ecaller & Eactive
        & _ & _ & _ & _ & _ & _ & ->).
  simpl fst. simpl snd.
  set (db' := Profile_increment _ _ _).
  assert (Ejob' : Job_byId db' jobId
                  = Some {| job_id := job_id job; price := price job;
                            paid := Bool true; paymentDate := Some now;
                            ContractId := ContractId job |}).
  { change (Job_byId db' jobId) with (Job_byId (Job_update_paid jobId now db) jobId).
    now rewrite Job_byId_update_paid, Z.eqb_refl, Ejob. }
  unfold payJob. rewrite (validateJobClientType_client _ Htype).
  rewrite (Job_findOne_found db' jobId (profile_id profile) _ c Ejob' Ec Ecaller Eactive).
  reflexivity.
Qed.

Lemma payJob_twice_witness :
  payJob 100 Fixtures.clientA 3
    (snd (fst (payJob 99 Fixtures.clientA 3 Fixtures.scenario)))
  = ({| res_status := 400%Z; res_body := Message "Job is already paid" |},
     snd (fst (payJob 99 Fixtures.clientA 3 Fixtures.scenario)),
     [SelectJob 3 (profile_id Fixtures.clientA)]).
Proof.
  apply (payJob_twice 99 100 Fixtures.clientA 3 Fixtures.scenario).
  reflexivity.
Defined.

(** X4: for a client, the answer is 404 "Job not found", with nothing
    changed, exactly when no job with that id has a contract that is the
    caller's and is new or in progress: a missing job, a job of somebody
    else's contract and a job of a terminated contract all look alike. *)
Theorem payJob_not_found_iff (now : Z) (profile : Profile) (jobId : Z) (db : DB) :
  profile_type profile = "client" ->
  (payJob now profile jobId db
   = ({| res_status := 404%Z; res_body := Message "Job not found" |}, db,
      [SelectJob jobId (profile_id profile)])
   <->
   ~ exists (job : Job) (c : Contract),
       Job_byId db jobId = Some job /\
       Contract_byId db (ContractId job) = Some c /\
       ClientId c = profile_id profile /\
       (status c = "new" \/ status c = "in_progress")).
Proof.
  intros Htype. unfold payJob. rewrite (validateJobClientType_client _ Htype).
  destruct (Job_findOne db jobId (profile_id profile)) as [jj|] eqn:Efind.
  - split.
    + intros Hrun. exfalso. simpl in Hrun.
      destruct (truthy _); [discriminate|].
      destruct (Client _); [|discriminate].
      destruct (gt _ _); [discriminate|].
      destruct (transaction _ _) as [[[]|e] d]; discriminate.
    + intros Hnone. exfalso. apply Hnone.
      destruct (Job_findOne_inv _ _ _ _ Efind) as (job & c & H1 & H2 & H3 & H4 & _).
      exists job, c. apply status_active_iff in H4. repeat split; assumption.
  - split; [|reflexivity].
    intros _ (job & c & H1 & H2 & H3 & H4).
    apply status_active_iff in H4.
    rewrite (Job_findOne_found _ _ _ _ _ H1 H2 H3 H4) in Efind. discriminate.
Qed.

Lemma payJob_not_found_iff_witness :
  payJob 0 Fixtures.clientA 4 Fixtures.scenario
  = ({| res_status := 404%Z; res_body := Message "Job not found" |},
     Fixtures.scenario, [SelectJob 4 (profile_id Fixtures.clientA)]).
Proof.
  apply (payJob_not_found_iff 0 Fixtures.clientA 4 Fixtures.scenario).
  - reflexivity.
  - intros (job & c & H & _). discriminate H.
Defined.

(** ** Balances under a payment *)

Section BalanceUpdate.

Variable k : Z.
Variable change : Profile -> Profile.
Variable delta : Q.
Hypothesis change_keeps_id : forall p, profile_id (change p) = profile_id p.
Hypothesis change_adds : forall p, balance (change p) == balance p + delta.

Local Abbreviation update rows :=
  (map (fun p => if (profile_id p =? k)%Z then change p else p) rows).

Lemma update_keeps_ids (rows : list Profile) :
  map profile_id (update rows) = map profile_id rows.
Proof.
  induction rows as [|p rows IH]; simpl; [reflexivity|].
  rewrite IH. destruct (profile_id p =? k)%Z; [now rewrite change_keeps_id | reflexivity].
Qed.

Lemma update_absent (rows : list Profile) :
  ~ In k (map profile_id rows) -> update rows = rows.
Proof.
  induction rows as [|p rows IH]; simpl; intros H; [reflexivity|].
  destruct (profile_id p =? k)%Z eqn:E.
  - apply Z.eqb_eq in E. exfalso. apply H. now left.
  - rewrite IH; [reflexivity|]. intros Hin. apply H. now right.
Qed.

(** One row has the key: the total moves by [delta]. *)
Lemma update_total (rows : list Profile) :
  NoDup (map profile_id rows) ->
  In k (map profile_id rows) ->
  Qsum (map balance (update rows)) == Qsum (map balance rows) + delta.
Proof.
  induction rows as [|p rows IH]; simpl; intros Hnd Hin; [contradiction|].
  inversion Hnd as [|x l Hnotin Hnd']; subst.
  destruct (profile_id p =? k)%Z eqn:E.
  - apply Z.eqb_eq in E. rewrite E in Hnotin.
    rewrite (update_absent rows Hnotin), change_adds. ring.
  - destruct Hin as [Hin|Hin]; [apply Z.eqb_neq in E; congruence|].
    rewrite (IH Hnd' Hin). ring.
Qed.

End BalanceUpdate.

Lemma Profile_byId_In (db : DB) (i : Z) (p : Profile) :
  Profile_byId db i = Some p -> In i (map profile_id (db_Profiles db)).
Proof.
  intros H. pose proof (Profile_byId_id _ _ _ H) as <-.
  unfold Profile_byId in H. apply find_some in H. apply in_map. tauto.
Qed.

(** X5: money is only moved.  When profile ids are unique, the total of all
    balances after a pay request, whatever its outcome, equals the total
    before it (also when one profile is on both sides of the contract). *)
Theorem payJob_keeps_total (now : Z) (profile : Profile) (jobId : Z) (db : DB) :
  unique_profile_ids db ->
  totalBalance (snd (fst (payJob now profile jobId db))) == totalBalance db.
Proof.
  intros Hunique.
  destruct (Z.eq_dec (res_status (fst (fst (payJob now profile jobId db)))) 201)
    as [Hok|Hfail].
  2:{ now rewrite (payJob_not_201 _ _ _ _ Hfail). }
  destruct (payJob now profile jobId db) as [[resp db'] queries] eqn:Hrun.
  destruct (payJob_201_inv _ _ _ _ _ _ _ Hrun Hok)
    as (job & c & client & contractor & _ & _ & _ & _ & _ & Eclient & Econtractor
        & _ & _ & _ & _ & ->).
  unfold totalBalance, unique_profile_ids in *. simpl.
  pose proof (update_keeps_ids (ClientId c)
                (fun p => set_balance p (balance p - price job))
                (fun p => eq_refl) (db_Profiles db)) as Hids.
  pose proof (update_total (ClientId c)
                (fun p => set_balance p (balance p - price job)) (- price job)
                (fun p => Qeq_refl _)
                (db_Profiles db) Hunique (Profile_byId_In _ _ _ Eclient)) as Hdec.
  pose proof (update_total (ContractorId c)
                (fun p => set_balance p (balance p + price job)) (price job)
                (fun p => Qeq_refl _)
                (map (fun p => if (profile_id p =? ClientId c)%Z
                               then set_balance p (balance p - price job) else p)
                     (db_Profiles db))) as Hinc.
  rewrite Hids in Hinc.
  specialize (Hinc Hunique (Profile_byId_In _ _ _ Econtractor)).
  cbv beta in Hdec, Hinc. rewrite Hinc, Hdec. ring.
Qed.

Lemma payJob_keeps_total_witness :
  totalBalance (snd (fst (payJob 99 Fixtures.clientA 3 Fixtures.scenario)))
  == totalBalance Fixtures.scenario.
Proof.
  apply (payJob_keeps_total 99 Fixtures.clientA 3 Fixtures.scenario).
  unfold unique_profile_ids. simpl.
  repeat constructor; simpl; intuition discriminate.
Defined.

(** X6: the payer is never overdrawn.  With two distinct parties, after a
    201 the caller's balance is what it was less the price, and not
    negative. *)
Theorem payJob_never_overdraws (now : Z) (profile : Profile) (jobId : Z) (db : DB) :
  distinct_parties db ->
  res_status (fst (fst (payJob now profile jobId db))) = 201%Z ->
  exists (job : Job) (before after : Profile),
    Job_byId db jobId = Some job /\
    Profile_byId db (profile_id profile) = Some before /\
    Profile_byId (snd (fst (payJob now profile jobId db))) (profile_id profile)
    = Some after /\
    balance after = balance before - price job /\
    0 <= balance after.
Proof.
  intros Hdistinct Hok.
  destruct (payJob now profile jobId db) as [[resp db'] queries] eqn:Hrun.
  destruct (payJob_201_inv _ _ _ _ _ _ _ Hrun Hok)
    as (job & c & client & contractor & _ & Ejob & Ec & Ecaller & _ & Eclient
        & Econtractor & _ & Hle & _ & _ & ->).
  assert (Hne : ClientId c <> ContractorId c).
  { apply Hdistinct. unfold Contract_byId in Ec. now apply find_some in Ec. }
  assert (E1 : (ClientId c =? ContractorId c)%Z = false) by now apply Z.eqb_neq.
  exists job, client, (set_balance client (balance client - price job)).
  rewrite <- Ecaller. simpl snd. simpl fst.
  rewrite Profile_byId_increment, E1, Profile_byId_decrement, Z.eqb_refl.
  change (Profile_byId (Job_update_paid jobId now db) (ClientId c))
    with (Profile_byId db (ClientId c)).
  rewrite Eclient. repeat split; try assumption.
  simpl. apply (Qplus_le_r _ _ (price job)). ring_simplify. exact Hle.
Qed.

Lemma payJob_never_overdraws_witness :
  exists (job : Job) (before after : Profile),
    Job_byId Fixtures.scenario 3 = Some job /\
    Profile_byId Fixtures.scenario (profile_id Fixtures.clientA) = Some before /\
    Profile_byId (snd (fst (payJob 99 Fixtures.clientA 3 Fixtures.scenario)))
                 (profile_id Fixtures.clientA)
    = Some after /\
    balance after = balance before - price job /\
    0 <= balance after.
Proof.
  apply (payJob_never_overdraws 99 Fixtures.clientA 3 Fixtures.scenario).
  - intros c [<-|[]]. discriminate.
  - reflexivity.
Defined.

Lemma map_after_update {Row A : Type} (key : Row -> Z) (change : Row -> Row)
    (f : Row -> A) (k : Z) (rows : list Row) :
  (forall r, f (change r) = f r) ->
  map f (map (fun r => if (key r =? k)%Z then change r else r) rows) = map f rows.
Proof.
  intros H. induction rows as [|r rows IH]; simpl; [reflexivity|].
  rewrite IH. destruct (key r =? k)%Z; [now rewrite H | reflexivity].
Qed.

(** X7: what a pay request never touches, whatever its outcome: the
    contracts; the id, price and contract of every job; every job other than
    the one named; the id, names, profession and type of every profile; and
    the balance of every profile that is not a party of the named job's
    contract. *)
Theorem payJob_frame (now : Z) (profile : Profile) (jobId : Z) (db : DB) :
  let db' := snd (fst (payJob now profile jobId db)) in
  db_Contracts db' = db_Contracts db /\
  map (fun j => (job_id j, price j, ContractId j)) (db_Jobs db')
  = map (fun j => (job_id j, price j, ContractId j)) (db_Jobs db) /\
  (forall i : Z, i <> jobId -> Job_byId db' i = Job_byId db i) /\
  map (fun p => (profile_id p, firstName p, lastName p, profession p, profile_type p))
      (db_Profiles db')
  = map (fun p => (profile_id p, firstName p, lastName p, profession p, profile_type p))
        (db_Profiles db) /\
  (forall k : Z,
      Profile_byId db' k <> Profile_byId db k ->
      exists (job : Job) (c : Contract),
        Job_byId db jobId = Some job /\
        Contract_byId db (ContractId job) = Some c /\
        (k = ClientId c \/ k = ContractorId c)).
Proof.
  intros db'. subst db'.
  destruct (Z.eq_dec (res_status (fst (fst (payJob now profile jobId db)))) 201)
    as [Hok|Hfail].
  2:{ rewrite (payJob_not_201 _ _ _ _ Hfail).
      repeat split; try reflexivity. intros k Hk. congruence. }
  destruct (payJob now profile jobId db) as [[resp db'] queries] eqn:Hrun.
  destruct (payJob_201_inv _ _ _ _ _ _ _ Hrun Hok)
    as (job & c & client & contractor & _ & Ejob & Ec & _ & _ & _ & _ & _ & _ & _ & _
        & ->).
  simpl fst. simpl snd.
  split; [reflexivity|]. split; [|split; [|split]].
  - simpl. now apply map_after_update.
  - intros i Hi.
    change (Job_byId (Job_update_paid jobId now db) i = Job_byId db i).
    rewrite Job_byId_update_paid.
    apply Z.eqb_neq in Hi. now rewrite Hi.
  - simpl. rewrite map_after_update by reflexivity. now apply map_after_update.
  - intros k Hk. exists job, c. repeat split; try assumption.
    destruct (Z.eq_dec k (ClientId c)) as [|Hc]; [now left|].
    destruct (Z.eq_dec k (ContractorId c)) as [|Hr]; [now right|].
    exfalso. apply Hk.
    rewrite Profile_byId_increment, Profile_byId_decrement.
    apply Z.eqb_neq in Hc, Hr. now rewrite Hc, Hr.
Qed.

Lemma payJob_frame_witness :
  Job_byId (snd (fst (payJob 99 Fixtures.clientA 3 Fixtures.scenario))) 5
  = Job_byId Fixtures.scenario 5.
Proof.
  apply (payJob_frame 99 Fixtures.clientA 3 Fixtures.scenario). discriminate.
Defined.

(** ** Deposits *)

Lemma Profile_findOne_inv (db : DB) (userId : Z) (user : ProfileWithContracts) :
  Profile_findOne db userId = Some user ->
  Profile_byId db userId = Some (pc_profile user) /\
  profile_id (pc_profile user) = userId.
Proof.
  unfold Profile_findOne. intros H.
  destruct (Profile_byId db userId) as [p|] eqn:E; [|discriminate].
  injection H as <-. simpl. split; [reflexivity|].
  exact (Profile_byId_id _ _ _ E).
Qed.

Lemma validateDepositBalance_Ok_iff
    (Number_toString : Binary64.number -> string) (user : option ProfileWithContracts)
    (depositValue : option Q) :
  validateDepositBalance Number_toString user depositValue = Ok tt <->
  exists (u : ProfileWithContracts) (v : Q),
    user = Some u /\ depositValue = Some v /\
    profile_type (pc_profile u) = "client" /\
    Binary64.gt (Binary64.Number v) Binary64.zero = true /\
    Binary64.gt (Binary64.Number v)
                (Binary64.mul Binary64.quarter (totalJobsToPayAmount u)) = false.
Proof.
  split.
  - destruct user as [u|]; [|discriminate].
    destruct (String.eqb (profile_type (pc_profile u)) "client") eqn:Etype.
    2:{ unfold validateDepositBalance. rewrite Etype. discriminate. }
    apply String.eqb_eq in Etype.
    destruct depositValue as [v|].
    2:{ unfold validateDepositBalance. rewrite Etype. discriminate. }
    rewrite validateDepositBalance_client by assumption.
    destruct (Binary64.gt (Binary64.Number v) Binary64.zero) eqn:Hpos; [|discriminate].
    destruct (Binary64.gt (Binary64.Number v)
                (Binary64.mul Binary64.quarter (totalJobsToPayAmount u))) eqn:Egt;
      [discriminate|].
    intros _. exists u, v. repeat split; assumption.
  - intros (u & v & -> & -> & Htype & Hpos & Hcap).
    rewrite validateDepositBalance_positive by assumption.
    now rewrite Hcap.
Qed.

(** Every failure of the deposit validation is a 404 or a 400. *)
Lemma validateDepositBalance_Throw
    (Number_toString : Binary64.number -> string) (user : option ProfileWithContracts)
    (depositValue : option Q) (e : exn) :
  validateDepositBalance Number_toString user depositValue = Throw e ->
  exists message : string, e = HttpError 404 message \/ e = HttpError 400 message.
Proof.
  unfold validateDepositBalance, throwHttpError.
  destruct user as [u|]; [|intros H; injection H as <-; eexists; now left].
  destruct (negb _); [intros H; injection H as <-; eexists; now right|].
  destruct depositValue as [v|]; [|intros H; injection H as <-; eexists; now right].
  cbv zeta.
  destruct (_ || _); [intros H; injection H as <-; eexists; now right|].
  destruct (Binary64.gt _ _); [intros H; injection H as <-; eexists; now right|].
  intros H. discriminate H.
Qed.

(** When the deposit handler answers 201, and what it then writes. *)
Lemma deposit_201_facts
    (Number_toString : Binary64.number -> string) (userId : Z)
    (depositValue : option Q) (db : DB) :
  let run := deposit Number_toString userId depositValue db in
  (res_status (fst (fst run)) = 201%Z <->
   exists (p : Profile) (v : Q),
     Profile_byId db userId = Some p /\ depositValue = Some v /\
     profile_type p = "client" /\
     Binary64.gt (Binary64.Number v) Binary64.zero = true /\
     Binary64.gt (Binary64.Number v)
                 (Binary64.mul Binary64.quarter (owed db userId)) = false) /\
  (res_status (fst (fst run)) = 201%Z ->
   exists (p : Profile) (v : Q),
     Profile_byId db userId = Some p /\ depositValue = Some v /\
     Profile_byId (snd (fst run)) userId = Some (set_balance p (balance p + v)) /\
     (forall k : Z, k <> userId -> Profile_byId (snd (fst run)) k = Profile_byId db k) /\
     db_Contracts (snd (fst run)) = db_Contracts db /\
     db_Jobs (snd (fst run)) = db_Jobs db).
Proof.
  intros run. subst run. unfold deposit.
  destruct (validateDepositBalance Number_toString (Profile_findOne db userId)
              depositValue) as [[]|e] eqn:Echeck.
  - apply validateDepositBalance_Ok_iff in Echeck.
    destruct Echeck as (u & v & Eu & -> & Htype & Hpos & Hcap).
    rewrite Eu. simpl.
    destruct (Profile_findOne_inv _ _ _ Eu) as [Ep Eid].
    rewrite (totalJobsToPayAmount_owed _ _ _ Eu) in Hcap.
    split.
    + split; [|reflexivity]. intros _.
      exists (pc_profile u), v. repeat split; assumption.
    + intros _. exists (pc_profile u), v. rewrite Eid.
      split; [assumption|]. split; [reflexivity|]. split; [|split].
      * now rewrite Profile_byId_increment, Z.eqb_refl, Ep.
      * intros k Hk. rewrite Profile_byId_increment.
        apply Z.eqb_neq in Hk. now rewrite Hk.
      * split; reflexivity.
  - destruct (validateDepositBalance_Throw _ _ _ _ Echeck) as [m Hm].
    assert (Hstatus : res_status (errorHandler e) <> 201%Z)
      by (destruct Hm as [->| ->]; discriminate).
    simpl. split; [split|]; [contradiction | | contradiction].
    intros (p & v & Ep & -> & Htype & Hpos & Hcap). exfalso.
    assert (Hu : exists u, Profile_findOne db userId = Some u /\ pc_profile u = p).
    { unfold Profile_findOne. rewrite Ep. eexists. split; reflexivity. }
    destruct Hu as (u & Hu & Hp).
    assert (Hok : validateDepositBalance Number_toString (Profile_findOne db userId)
                    (Some v) = Ok tt).
    { apply validateDepositBalance_Ok_iff. exists u, v.
      rewrite Hp, (totalJobsToPayAmount_owed _ _ _ Hu).
      repeat split; assumption. }
    congruence.
Qed.

(** X8: for a request whose [value] is a JSON number or is missing, the
    deposit handler answers 201 exactly when the profile exists, is a client,
    the value is present and, as JavaScript numbers, it is above 0 and not
    above a quarter of the total the validator adds up from the prices of the
    profile's unpaid jobs; then that profile's balance is raised by exactly
    the value and no other profile, contract or job changes. *)
Theorem deposit_201_iff
    (Number_toString : Binary64.number -> string) (userId : Z)
    (depositValue : option Q) (db : DB) :
  let run := deposit Number_toString userId depositValue db in
  (res_status (fst (fst run)) = 201%Z <->
   exists (p : Profile) (v : Q),
     Profile_byId db userId = Some p /\ depositValue = Some v /\
     profile_type p = "client" /\
     Binary64.gt (Binary64.Number v) Binary64.zero = true /\
     Binary64.gt (Binary64.Number v)
                 (Binary64.mul Binary64.quarter (owed db userId)) = false) /\
  (res_status (fst (fst run)) = 201%Z ->
   exists (p : Profile) (v : Q),
     Profile_byId db userId = Some p /\ depositValue = Some v /\
     Profile_byId (snd (fst run)) userId = Some (set_balance p (balance p + v)) /\
     (forall k : Z, k <> userId -> Profile_byId (snd (fst run)) k = Profile_byId db k) /\
     db_Contracts (snd (fst run)) = db_Contracts db /\
     db_Jobs (snd (fst run)) = db_Jobs db).
Proof.
  intros run. subst run.
  exact (deposit_201_facts Number_toString userId depositValue db).
Qed.

Lemma deposit_201_iff_witness :
  res_status (fst (fst (deposit integer_toString 10 (Some 75) Fixtures.scenario)))
  = 201%Z.
Proof.
  apply (proj1 (deposit_201_iff integer_toString 10 (Some 75) Fixtures.scenario)).
  exists Fixtures.clientA, 75.
  repeat split; vm_compute; reflexivity.
Defined.

(** X9: a deposit that is not answered 201 is answered 404 or 400, never
    anything else, and changes nothing; it is 404 exactly when no profile
    has the id. *)
Theorem deposit_failure
    (Number_toString : Binary64.number -> string) (userId : Z)
    (depositValue : option Q) (db : DB) :
  let run := deposit Number_toString userId depositValue db in
  res_status (fst (fst run)) <> 201%Z ->
  snd (fst run) = db /\
  (res_status (fst (fst run)) = 404%Z \/ res_status (fst (fst run)) = 400%Z) /\
  (res_status (fst (fst run)) = 404%Z <-> Profile_byId db userId = None).
Proof.
  intros run. subst run. unfold deposit.
  destruct (validateDepositBalance Number_toString (Profile_findOne db userId)
              depositValue) as [[]|e] eqn:Echeck.
  - apply validateDepositBalance_Ok_iff in Echeck.
    destruct Echeck as (u & v & -> & -> & _). simpl. congruence.
  - intros _. simpl. split; [reflexivity|].
    unfold validateDepositBalance, throwHttpError, Profile_findOne in Echeck.
    destruct (Profile_byId db userId) as [p|].
    + cbn [pc_profile] in Echeck.
      assert (He : exists m, e = HttpError 400 m).
      { destruct (negb _); [injection Echeck as <-; now eexists|].
        destruct depositValue as [v|]; [|injection Echeck as <-; now eexists].
        cbv zeta in Echeck.
        destruct (_ || _); [injection Echeck as <-; now eexists|].
        destruct (Binary64.gt _ _); [injection Echeck as <-; now eexists | discriminate]. }
      destruct He as [m ->]. simpl. split; [now right|]. split; discriminate.
    + injection Echeck as <-. simpl. split; [now left|]. split; reflexivity.
Qed.

Lemma deposit_failure_witness :
  snd (fst (deposit integer_toString 10 (Some 76) Fixtures.scenario))
  = Fixtures.scenario /\
  (res_status (fst (fst (deposit integer_toString 10 (Some 76) Fixtures.scenario)))
   = 404%Z \/
   res_status (fst (fst (deposit integer_toString 10 (Some 76) Fixtures.scenario)))
   = 400%Z) /\
  (res_status (fst (fst (deposit integer_toString 10 (Some 76) Fixtures.scenario)))
   = 404%Z <-> Profile_byId Fixtures.scenario 10 = None).
Proof.
  apply (deposit_failure integer_toString 10 (Some 76) Fixtures.scenario).
  vm_compute. discriminate.
Defined.

(** X10: the cap bounds one deposit, not the balance.  A deposit that was
    answered 201 is answered 201 again however often it is repeated, and
    after n of them the balance has grown by n times the amount. *)
Theorem deposit_repeats
    (Number_toString : Binary64.number -> string) (userId : Z) (v : Q) (db : DB)
    (p : Profile) (n : nat) :
  Profile_byId db userId = Some p ->
  res_status (fst (fst (deposit Number_toString userId (Some v) db))) = 201%Z ->
  let after :=
    Nat.iter n (fun d => snd (fst (deposit Number_toString userId (Some v) d))) db in
  res_status (fst (fst (deposit Number_toString userId (Some v) after))) = 201%Z /\
  exists p' : Profile,
    Profile_byId after userId = Some p' /\
    balance p' == balance p + inject_Z (Z.of_nat n) * v.
Proof.
  intros Ep Hok after.
  apply (proj1 (deposit_201_facts Number_toString userId (Some v) db)) in Hok.
  destruct Hok as (p0 & v0 & Ep0 & Ev & Htype & Hpos & Hcap).
  injection Ev as <-. rewrite Ep in Ep0. injection Ep0 as <-.
  assert (Hinv : exists p' : Profile,
             Profile_byId after userId = Some p' /\
             profile_type p' = "client" /\
             balance p' == balance p + inject_Z (Z.of_nat n) * v /\
             db_Contracts after = db_Contracts db /\
             db_Jobs after = db_Jobs db).
  { subst after. induction n as [|n IH].
    - exists p. simpl. repeat split; try assumption. ring.
    - destruct IH as (q & Eq & Hq & Hbal & Hc & Hj).
      rewrite Nat.iter_succ.
      set (d := Nat.iter n _ db) in *.
      assert (Hstep : res_status (fst (fst (deposit Number_toString userId (Some v) d)))
                      = 201%Z).
      { apply (proj1 (deposit_201_facts Number_toString userId (Some v) d)).
        exists q, v. unfold owed. rewrite Hc, Hj.
        repeat split; assumption. }
      apply (proj2 (deposit_201_facts Number_toString userId (Some v) d)) in Hstep.
      destruct Hstep as (q' & v' & Eq' & Ev' & Eafter & _ & Hc' & Hj').
      injection Ev' as <-. rewrite Eq in Eq'. injection Eq' as <-.
      exists (set_balance q (balance q + v)). split; [exact Eafter|].
      split; [exact Hq|]. split; [|split; congruence].
      unfold set_balance. cbn [balance].
      rewrite Hbal, Nat2Z.inj_succ, <- Z.add_1_r, inject_Z_plus. ring. }
  destruct Hinv as (p' & Ep' & Htype' & Hbal & Hc & Hj).
  split; [|exists p'; split; assumption].
  apply (proj1 (deposit_201_facts Number_toString userId (Some v) after)).
  exists p', v. unfold owed. rewrite Hc, Hj.
  repeat split; assumption.
Qed.

Lemma deposit_repeats_witness :
  res_status
    (fst (fst (deposit integer_toString 10 (Some 75)
                 (Nat.iter 3
                    (fun d => snd (fst (deposit integer_toString 10 (Some 75) d)))
                    Fixtures.scenario))))
  = 201%Z /\
  exists p' : Profile,
    Profile_byId
      (Nat.iter 3 (fun d => snd (fst (deposit integer_toString 10 (Some 75) d)))
         Fixtures.scenario) 10
    = Some p' /\
    balance p' == balance Fixtures.clientA + inject_Z (Z.of_nat 3) * 75.
Proof.
  apply (deposit_repeats integer_toString 10 75 Fixtures.scenario Fixtures.clientA 3);
    vm_compute; reflexivity.
Defined.

(** ** Best profession: what the map holds and which key wins *)

Lemma get_None_iff (m : PropertyMap) (k : string) :
  get m k = None <-> ~ In k (map fst m).
Proof.
  induction m as [|[k0 v0] m IH]; simpl.
  - tauto.
  - destruct (String.eqb k0 k) eqn:E.
    + apply String.eqb_eq in E. split; [discriminate | tauto].
    + apply String.eqb_neq in E. rewrite IH. tauto.
Qed.

Lemma get_addUser_None (m : PropertyMap) (user : ProfileWithContracts) (k : string) :
  get (addUser m user) k = None <->
  get m k = None /\ profession (pc_profile user) <> k.
Proof.
  rewrite addUser_spec, get_set.
  destruct (String.eqb (profession (pc_profile user)) k) eqn:E.
  - apply String.eqb_eq in E. split; [discriminate | tauto].
  - apply String.eqb_neq in E.
    destruct (falsy_at m (profession (pc_profile user))).
    + rewrite get_set. apply String.eqb_neq in E. rewrite E.
      apply String.eqb_neq in E. tauto.
    + tauto.
Qed.

Lemma get_forEach_None (users : list ProfileWithContracts) (m : PropertyMap)
    (k : string) :
  get (fold_left addUser users m) k = None <->
  get m k = None /\ forall u, In u users -> profession (pc_profile u) <> k.
Proof.
  revert m. induction users as [|u users IH]; intros m; simpl.
  - split; [intros H; split; [exact H | contradiction] | tauto].
  - rewrite IH, get_addUser_None. split.
    + intros [[H1 H2] H3]. split; [exact H1|].
      intros u' [<-|Hu']; [exact H2 | now apply H3].
    + intros [H1 H2]. repeat split; auto.
Qed.

(** The properties of the map are the professions of the contractors. *)
Lemma get_forEach_Some (users : list ProfileWithContracts) (k : string) :
  get (fold_left addUser users []) k <> None <->
  exists u, In u users /\ profession (pc_profile u) = k.
Proof.
  rewrite get_forEach_None. split.
  - intros Hnot. induction users as [|u users IH].
    + exfalso. apply Hnot. split; [reflexivity | contradiction].
    + destruct (string_dec (profession (pc_profile u)) k) as [E|E].
      * exists u. split; [now left | exact E].
      * destruct IH as (u' & Hu' & E').
        -- intros [_ H]. apply Hnot. split; [reflexivity|].
           intros u' [<-|Hu']; [exact E | now apply H].
        -- exists u'. split; [now right | exact E'].
  - intros (u & Hu & E) [_ H]. exact (H u Hu E).
Qed.

(** X11: the grouping is right.  When no profession is a name that objects
    inherit, after the loop over the contractors the map has a property for a
    profession exactly when some contractor has that profession, and its
    amount is the total of that profession: the sums of the contractors of
    that profession, added up in fetch order as JavaScript numbers, each
    contractor's sum being that of the prices of the loaded jobs, contract
    by contract. *)
Theorem professionMap_totals (users : list ProfileWithContracts) (p : string) :
  own_names users ->
  let professionMap := fold_left addUser users [] in
  (get professionMap p = None <->
   forall u, In u users -> profession (pc_profile u) <> p) /\
  (forall x : Binary64.number,
      get professionMap p = Some x ->
      x = fold_left
            (fun total u =>
               Binary64.add (Binary64.or_zero total) (paidJobsSum (pc_Contractor u)))
            (filter (fun u => String.eqb (profession (pc_profile u)) p) users)
            Binary64.zero) /\
  (forall u : ProfileWithContracts,
      paidJobsSum (pc_Contractor u)
      = Binary64.sum
          (map (fun c =>
                  Binary64.sum
                    (map (fun j => Binary64.or_zero (Binary64.Number (price j)))
                         (Jobs c)))
               (pc_Contractor u))).
Proof.
  intros _ professionMap. split; [|split].
  - unfold professionMap. rewrite get_forEach_None. simpl. tauto.
  - intros x Hx.
    pose proof (amount_at_professionSum users p) as H.
    fold professionMap in H. unfold amount_at in H. rewrite Hx in H.
    exact H.
  - intros u. apply paidJobsSum_spec.
Qed.

Lemma professionMap_totals_witness :
  get (fold_left addUser tiedContractors []) "Wizard" = None /\
  Binary64.Number 100
  = fold_left
      (fun total u =>
         Binary64.add (Binary64.or_zero total) (paidJobsSum (pc_Contractor u)))
      (filter (fun u => String.eqb (profession (pc_profile u)) "Builder")
              tiedContractors)
      Binary64.zero.
Proof.
  assert (Hown : own_names tiedContractors)
    by (intros u [<-|[<-|[]]]; simpl; intuition discriminate).
  split.
  - apply (professionMap_totals tiedContractors "Wizard" Hown).
    intros u [<-|[<-|[]]]; discriminate.
  - apply (professionMap_totals tiedContractors "Builder" Hown).
    vm_compute. reflexivity.
Defined.

Lemma gt_at_amount (m : PropertyMap) (a b : string) :
  get m a <> None -> get m b <> None ->
  gt_at m a b = Binary64.gt (amount_at m a) (amount_at m b).
Proof.
  unfold gt_at, amount_at. intros Ha Hb.
  destruct (get m a); [|congruence]. destruct (get m b); [|congruence]. reflexivity.
Qed.

(** The key [reduce] ends with, when no amount is [NaN]: nothing before it
    in the array is above it, everything after it is strictly below it. *)
Lemma reduce_pick (m : PropertyMap) (rest : list string) :
  (forall k, get m k <> None -> Binary64.is_nan (amount_at m k) = false) ->
  forall (before : list string) (r : string) (after : list string),
    Forall (fun k => get m k <> None) (r :: after ++ rest) ->
    Forall (fun k => Binary64.gt (amount_at m k) (amount_at m r) = false) before ->
    Forall (fun k => Binary64.gt (amount_at m r) (amount_at m k) = true) after ->
    exists (before' : list string) (best : string) (after' : list string),
      (before ++ r :: after ++ rest)%list = (before' ++ best :: after')%list /\
      fold_left (fun a b => if gt_at m a b then a else b) rest r = best /\
      Forall (fun k => Binary64.gt (amount_at m k) (amount_at m best) = false) before' /\
      Forall (fun k => Binary64.gt (amount_at m best) (amount_at m k) = true) after'.
Proof.
  intros Hnan.
  induction rest as [|b rest IH]; intros before r after Hpresent Hbefore Hafter.
  - exists before, r, after. rewrite app_nil_r. repeat split; assumption.
  - simpl.
    assert (Hr : get m r <> None) by now inversion Hpresent.
    assert (Hb : get m b <> None).
    { rewrite Forall_forall in Hpresent. apply Hpresent.
      right. apply in_or_app. right. now left. }
    rewrite (gt_at_amount m r b Hr Hb).
    destruct (Binary64.gt (amount_at m r) (amount_at m b)) eqn:E.
    + destruct (IH before r (after ++ [b])%list) as (b' & best & a' & H1 & H2 & H3 & H4).
      * rewrite <- app_assoc. exact Hpresent.
      * exact Hbefore.
      * apply Forall_app. split; [exact Hafter | now constructor].
      * exists b', best, a'. rewrite <- app_assoc in H1. repeat split; assumption.
    + destruct (IH (before ++ r :: after)%list b []) as (b' & best & a' & H1 & H2 & H3 & H4).
      * simpl. rewrite Forall_forall in *. intros k Hk. apply Hpresent.
        right. apply in_or_app. now right.
      * apply Forall_app. split; [|constructor].
        -- rewrite Forall_forall in *. intros k Hk.
           exact (Binary64Facts.not_gt_trans _ _ _ (Hnan r Hr) (Hbefore k Hk) E).
        -- exact E.
        -- rewrite Forall_forall in *. intros k Hk.
           exact (Binary64Facts.lt_not_gt_trans _ _ _ (Hafter k Hk) E).
      * constructor.
      * exists b', best, a'. simpl in H1. rewrite <- app_assoc in H1.
        repeat split; assumption.
Qed.

Lemma In_indexed_keys (m : PropertyMap) (k : string) :
  In k (map snd (flat_map (fun kv => match array_index (fst kv) with
                                     | Some n => [(n, fst kv)]
                                     | None => []
                                     end) m))
  <-> In k (map fst m) /\ array_index k <> None.
Proof.
  induction m as [|[k0 v0] m IH]; simpl; [tauto|].
  rewrite map_app, in_app_iff, IH.
  destruct (array_index k0) eqn:E0; simpl.
  - split.
    + intros [[E|[]]|[H1 H2]].
      * subst k. split; [now left | congruence].
      * tauto.
    + intros [[E|H1] H2].
      * left. now left.
      * tauto.
  - split.
    + intros [[]|[H1 H2]]. tauto.
    + intros [[E|H1] H2].
      * subst k. congruence.
      * tauto.
Qed.

Lemma In_Object_keys (m : PropertyMap) (k : string) :
  In k (Object_keys m) <-> In k (map fst m).
Proof.
  unfold Object_keys. rewrite in_app_iff.
  set (indexed := flat_map _ m).
  assert (Hsorted : In k (map snd (sort (fun a b => (fst a <? fst b)%N) indexed))
                    <-> In k (map snd indexed)).
  { split; apply Permutation_in, Permutation_map.
    - apply sort_Permutation.
    - symmetry. apply sort_Permutation. }
  rewrite Hsorted, filter_In. subst indexed.
  rewrite In_indexed_keys. destruct (array_index k); split; intros H.
  - tauto.
  - left. split; [exact H | discriminate].
  - tauto.
  - right. tauto.
Qed.

(** The keys [Object.keys] lists are the professions of the contractors. *)
Lemma In_Object_keys_forEach (users : list ProfileWithContracts) (k : string) :
  In k (Object_keys (fold_left addUser users []))
  <-> exists u, In u users /\ profession (pc_profile u) = k.
Proof.
  rewrite In_Object_keys, <- get_forEach_Some, get_None_iff.
  destruct (in_dec string_dec k (map fst (fold_left addUser users []))); tauto.
Qed.

Lemma bestProfession_pick
    (isValid : string -> bool) (start end_ : string)
    (users : list ProfileWithContracts) :
  validateDates isValid [start; end_] = Ok tt ->
  users <> [] ->
  (forall u, In u users ->
             Binary64.is_nan (professionSum users (profession (pc_profile u))) = false) ->
  exists (before : list string) (best : string) (after : list string),
    Object_keys (fold_left addUser users []) = (before ++ best :: after)%list /\
    Forall (fun k => Binary64.gt (professionSum users k) (professionSum users best)
                     = false) before /\
    Forall (fun k => Binary64.gt (professionSum users best) (professionSum users k)
                     = true) after /\
    bestProfession isValid start end_ users
    = {| res_status := 200%Z;
         res_body := JsonString (if Binary64.gt (professionSum users best) Binary64.zero
                                 then best else noProfessions) |}.
Proof.
  intros Hdates Hne Hnan. unfold bestProfession. rewrite Hdates.
  pose proof (amount_at_professionSum users) as Hamount.
  pose proof (get_forEach_Some users) as Hsome.
  pose proof (In_Object_keys_forEach users) as Hkey.
  pose proof (forEach_addUser_not_nil users [] Hne) as Hnil.
  pose proof (Object_keys_length (fold_left addUser users [])) as Hlen.
  set (m := fold_left addUser users []) in *.
  assert (Hpresent : Forall (fun k => get m k <> None) (Object_keys m)).
  { apply Forall_forall. intros k Hk. apply Hsome. now apply Hkey. }
  assert (Hnan' : forall k, get m k <> None -> Binary64.is_nan (amount_at m k) = false).
  { intros k Hk. apply Hsome in Hk. destruct Hk as (u & Hu & <-).
    rewrite Hamount. now apply Hnan. }
  destruct (Object_keys m) as [|k0 keys] eqn:Ekeys.
  { exfalso. apply Hnil. apply length_zero_iff_nil. now rewrite <- Hlen. }
  destruct (reduce_pick m keys Hnan' [] k0 [])
    as (before & best & after & H1 & H2 & H3 & H4).
  - exact Hpresent.
  - constructor.
  - constructor.
  - exists before, best, after. simpl in H1. simpl. rewrite H2.
    split; [exact H1|]. split; [|split].
    + rewrite Forall_forall in *. intros k Hk. rewrite <- !Hamount. now apply H3.
    + rewrite Forall_forall in *. intros k Hk. rewrite <- !Hamount. now apply H4.
    + do 2 f_equal.
      assert (Hbest : get m best <> None).
      { rewrite Forall_forall in Hpresent. apply Hpresent. rewrite H1.
        apply in_or_app. right. now left. }
      unfold positive_at. specialize (Hamount best). unfold amount_at in Hamount.
      destruct (get m best) as [x|]; [|congruence].
      now rewrite Hamount.
Qed.

(** X12: the report names a best-paid profession.  For a valid range and at
    least one contractor, when no profession is a name that objects inherit
    and no profession's total is [NaN], the profession reported is the
    profession of some contractor and no contractor's profession has a
    greater total; when that total is not above 0 the fallback text is sent
    instead. *)
Theorem bestProfession_is_maximal
    (isValid : string -> bool) (start end_ : string)
    (users : list ProfileWithContracts) :
  validateDates isValid [start; end_] = Ok tt ->
  users <> [] ->
  own_names users ->
  (forall u, In u users ->
             Binary64.is_nan (professionSum users (profession (pc_profile u))) = false) ->
  exists best : string,
    (exists u, In u users /\ profession (pc_profile u) = best) /\
    (forall u, In u users ->
               Binary64.gt (professionSum users (profession (pc_profile u)))
                           (professionSum users best) = false) /\
    bestProfession isValid start end_ users
    = {| res_status := 200%Z;
         res_body := JsonString (if Binary64.gt (professionSum users best) Binary64.zero
                                 then best else noProfessions) |}.
Proof.
  intros Hdates Hne _ Hnan.
  destruct (bestProfession_pick isValid start end_ users Hdates Hne Hnan)
    as (before & best & after & Hkeys & Hbefore & Hafter & Hresp).
  pose proof (In_Object_keys_forEach users) as Hkey.
  exists best. split; [|split; [|exact Hresp]].
  - apply Hkey. rewrite Hkeys. apply in_or_app. right. now left.
  - intros u Hu.
    assert (Hin : In (profession (pc_profile u))
                     (Object_keys (fold_left addUser users [])))
      by (apply Hkey; now exists u).
    rewrite Hkeys in Hin. apply in_app_or in Hin.
    rewrite Forall_forall in Hbefore, Hafter.
    destruct Hin as [Hin|[<-|Hin]].
    + now apply Hbefore.
    + apply Binary64Facts.gt_irrefl.
    + apply Binary64Facts.gt_asym. now apply Hafter.
Qed.

Lemma bestProfession_is_maximal_witness :
  exists best : string,
    (exists u, In u tiedContractors /\ profession (pc_profile u) = best) /\
    (forall u, In u tiedContractors ->
               Binary64.gt (professionSum tiedContractors (profession (pc_profile u)))
                           (professionSum tiedContractors best) = false) /\
    bestProfession StrictDate.isValid "2020-01-01" "2020-12-31" tiedContractors
    = {| res_status := 200%Z;
         res_body := JsonString
                       (if Binary64.gt (professionSum tiedContractors best)
                                       Binary64.zero
                        then best else noProfessions) |}.
Proof.
  apply (bestProfession_is_maximal StrictDate.isValid "2020-01-01" "2020-12-31"
           tiedContractors).
  - reflexivity.
  - discriminate.
  - intros u [<-|[<-|[]]]; simpl; intuition discriminate.
  - intros u [<-|[<-|[]]]; vm_compute; reflexivity.
Defined.

(** X13: ties go to the later key.  Under the same conditions, in the order
    of [Object.keys] (creation order, array-index names first), every key
    after the reported one has a strictly smaller total and no key before it
    has a greater one: of several professions with the highest total the
    last one is reported. *)
Theorem bestProfession_last_of_the_best
    (isValid : string -> bool) (start end_ : string)
    (users : list ProfileWithContracts) :
  validateDates isValid [start; end_] = Ok tt ->
  users <> [] ->
  own_names users ->
  (forall u, In u users ->
             Binary64.is_nan (professionSum users (profession (pc_profile u))) = false) ->
  exists (before : list string) (best : string) (after : list string),
    Object_keys (fold_left addUser users []) = (before ++ best :: after)%list /\
    Forall (fun k => Binary64.gt (professionSum users k) (professionSum users best)
                     = false) before /\
    Forall (fun k => Binary64.gt (professionSum users best) (professionSum users k)
                     = true) after /\
    bestProfession isValid start end_ users
    = {| res_status := 200%Z;
         res_body := JsonString (if Binary64.gt (professionSum users best) Binary64.zero
                                 then best else noProfessions) |}.
Proof.
  intros Hdates Hne _ Hnan.
  exact (bestProfession_pick isValid start end_ users Hdates Hne Hnan).
Qed.

Lemma bestProfession_last_of_the_best_witness :
  exists (before : list string) (best : string) (after : list string),
    Object_keys (fold_left addUser tiedContractors []) = (before ++ best :: after)%list /\
    Forall (fun k => Binary64.gt (professionSum tiedContractors k)
                                 (professionSum tiedContractors best) = false) before /\
    Forall (fun k => Binary64.gt (professionSum tiedContractors best)
                                 (professionSum tiedContractors k) = true) after /\
    bestProfession StrictDate.isValid "2020-01-01" "2020-12-31" tiedContractors
    = {| res_status := 200%Z;
         res_body := JsonString (if Binary64.gt (professionSum tiedContractors best)
                                                Binary64.zero
                                 then best else noProfessions) |}.
Proof.
  apply (bestProfession_last_of_the_best StrictDate.isValid "2020-01-01" "2020-12-31"
           tiedContractors).
  - reflexivity.
  - discriminate.
  - intros u [<-|[<-|[]]]; simpl; intuition discriminate.
  - intros u [<-|[<-|[]]]; vm_compute; reflexivity.
Defined.

(** Programmer and Builder are both paid 100; Builder, created later, is
    reported. *)
Example bestProfession_tie :
  bestProfession StrictDate.isValid "2020-01-01" "2020-12-31" tiedContractors
  = {| res_status := 200%Z; res_body := JsonString "Builder" |}.
Proof. vm_compute. reflexivity. Qed.

(** The totals are what JavaScript computes: 0.1 + 0.2 is above the number
    read from 0.3, so this is no tie and Programmer, the earlier key, is
    reported. *)
Example bestProfession_rounding :
  bestProfession StrictDate.isValid "2020-01-01" "2020-12-31" centsContractors
  = {| res_status := 200%Z; res_body := JsonString "Programmer" |}.
Proof. vm_compute. reflexivity. Qed.

(** ** Best clients: the cut, bad dates, a negative limit *)

Lemma StronglySorted_app_cross {A : Type} (R : A -> A -> Prop) (l1 l2 : list A) :
  StronglySorted R (l1 ++ l2) ->
  forall a b, In a l1 -> In b l2 -> R a b.
Proof.
  induction l1 as [|x l1 IH]; simpl; intros Hs a b Ha Hb; [contradiction|].
  inversion Hs as [|y l Hs' Hall]; subst.
  destruct Ha as [<-|Ha].
  - rewrite Forall_forall in Hall. apply Hall. apply in_or_app. now right.
  - now apply IH.
Qed.

(** X14: the report is a top-N cut.  For a valid range and a result count N
    (2 when absent), the clients listed and the clients left out are together
    all the clients, min(N, number of clients) are listed, no client left out
    has a greater paid sum than a listed one, and the listed ones are in
    descending order (none is followed by one with a greater paid sum). *)
Theorem bestClients_cut
    (isValid : string -> bool) (start end_ : string) (limit : option nat)
    (users : list ProfileWithContracts) :
  validateDates isValid [start; end_] = Ok tt ->
  let N := match limit with Some n => n | None => 2%nat end in
  exists listed left_out : list BestClient,
    bestClients isValid start end_ (option_map Z.of_nat limit) users
    = {| res_status := 200%Z; res_body := JsonClients listed |} /\
    Permutation (listed ++ left_out) (map toBestClient users) /\
    length listed = Nat.min N (length users) /\
    StronglySorted (fun a b => Binary64.gt (bc_paid b) (bc_paid a) = false) listed /\
    (forall a b, In a listed -> In b left_out ->
                 Binary64.gt (bc_paid b) (bc_paid a) = false).
Proof.
  intros Hdates N.
  set (ranked := sort paidBefore (map toBestClient users)).
  assert (Hsorted : StronglySorted paidDescending (firstn N ranked ++ skipn N ranked))
    by (rewrite firstn_skipn; apply sort_paidDescending).
  exists (firstn N ranked), (skipn N ranked).
  split; [|split; [|split; [|split]]].
  - unfold bestClients. rewrite Hdates.
    rewrite slice0_firstn by (destruct limit; simpl; lia).
    subst N. destruct limit; simpl; [now rewrite Nat2Z.id | reflexivity].
  - rewrite firstn_skipn. apply sort_Permutation.
  - rewrite length_firstn. unfold ranked.
    now rewrite sort_length, length_map.
  - clear - Hsorted. revert Hsorted.
    generalize (firstn N ranked) as l1. generalize (skipn N ranked) as l2.
    intros l2 l1. induction l1 as [|x l1 IH]; simpl; intros H; [constructor|].
    inversion H as [|y l H' Hall]; subst. constructor; [now apply IH|].
    rewrite Forall_forall in *. intros z Hz. apply Hall. apply in_or_app. now left.
  - intros a b Ha Hb.
    exact (StronglySorted_app_cross paidDescending _ _ Hsorted a b Ha Hb).
Qed.

Lemma bestClients_cut_witness :
  exists listed left_out : list BestClient,
    bestClients StrictDate.isValid "2020-01-01" "2020-12-31"
      (option_map Z.of_nat (Some 1%nat)) Fixtures.threeClients
    = {| res_status := 200%Z; res_body := JsonClients listed |} /\
    Permutation (listed ++ left_out) (map toBestClient Fixtures.threeClients) /\
    length listed = Nat.min 1 (length Fixtures.threeClients) /\
    StronglySorted (fun a b => Binary64.gt (bc_paid b) (bc_paid a) = false) listed /\
    (forall a b, In a listed -> In b left_out ->
                 Binary64.gt (bc_paid b) (bc_paid a) = false).
Proof.
  apply (bestClients_cut StrictDate.isValid "2020-01-01" "2020-12-31" (Some 1%nat)
           Fixtures.threeClients).
  reflexivity.
Defined.

(** X15: both reports check the dates first.  If [start] is not valid the
    answer is 400 "Invalid date: <start>", and if only [end] is not valid it
    is 400 "Invalid date: <end>", whatever profiles were fetched and whatever
    the limit: no aggregation is reached (in particular no 500 for an empty
    list of contractors). *)
Theorem reports_reject_invalid_dates
    (isValid : string -> bool) (start end_ : string) (limit : option Z)
    (users : list ProfileWithContracts) :
  (isValid start = false ->
   bestProfession isValid start end_ users
   = {| res_status := 400%Z; res_body := Message ("Invalid date: " ++ start) |} /\
   bestClients isValid start end_ limit users
   = {| res_status := 400%Z; res_body := Message ("Invalid date: " ++ start) |}) /\
  (isValid start = true -> isValid end_ = false ->
   bestProfession isValid start end_ users
   = {| res_status := 400%Z; res_body := Message ("Invalid date: " ++ end_) |} /\
   bestClients isValid start end_ limit users
   = {| res_status := 400%Z; res_body := Message ("Invalid date: " ++ end_) |}).
Proof.
  split.
  - intros Hs. unfold bestProfession, bestClients. simpl. rewrite Hs. split; reflexivity.
  - intros Hs He. unfold bestProfession, bestClients. simpl. rewrite Hs, He.
    split; reflexivity.
Qed.

Lemma reports_reject_invalid_dates_witness :
  bestProfession StrictDate.isValid "2020-02-31" "nonsense" []
  = {| res_status := 400%Z; res_body := Message "Invalid date: 2020-02-31" |} /\
  bestClients StrictDate.isValid "2020-02-31" "nonsense" None []
  = {| res_status := 400%Z; res_body := Message "Invalid date: 2020-02-31" |}.
Proof.
  apply (reports_reject_invalid_dates StrictDate.isValid "2020-02-31" "nonsense" None []).
  reflexivity.
Defined.

(** X16: a negative limit does not limit.  With limit -k (k > 0) the report
    lists all clients but the k with the lowest paid sums: the ranked
    entries without their last k. *)
Theorem bestClients_negative_limit_drops
    (isValid : string -> bool) (start end_ : string) (k : nat)
    (users : list ProfileWithContracts) :
  validateDates isValid [start; end_] = Ok tt ->
  (0 < k)%nat ->
  exists ranked : list BestClient,
    Permutation ranked (map toBestClient users) /\
    StronglySorted (fun a b => Binary64.gt (bc_paid b) (bc_paid a) = false) ranked /\
    bestClients isValid start end_ (Some (- Z.of_nat k)%Z) users
    = {| res_status := 200%Z;
         res_body := JsonClients (firstn (length users - k) ranked) |}.
Proof.
  intros Hdates Hk.
  exists (sort paidBefore (map toBestClient users)).
  split; [apply sort_Permutation|]. split; [apply sort_paidDescending|].
  unfold bestClients. rewrite Hdates. unfold slice0.
  rewrite sort_length, length_map.
  assert (E : (- Z.of_nat k <? 0)%Z = true) by (apply Z.ltb_lt; lia).
  rewrite E. do 3 f_equal. lia.
Qed.

Lemma bestClients_negative_limit_drops_witness :
  exists ranked : list BestClient,
    Permutation ranked (map toBestClient Fixtures.threeClients) /\
    StronglySorted (fun a b => Binary64.gt (bc_paid b) (bc_paid a) = false) ranked /\
    bestClients StrictDate.isValid "2020-01-01" "2020-12-31"
      (Some (- Z.of_nat 1)%Z) Fixtures.threeClients
    = {| res_status := 200%Z;
         res_body := JsonClients (firstn (length Fixtures.threeClients - 1) ranked) |}.
Proof.
  apply (bestClients_negative_limit_drops StrictDate.isValid "2020-01-01" "2020-12-31"
           1 Fixtures.threeClients).
  - reflexivity.
  - lia.
Defined.

(** ** The read-only routes *)

Lemma find_unique {Row : Type} (key : Row -> Z) (rows : list Row) (x : Row) :
  NoDup (map key rows) -> In x rows ->
  find (fun r => (key r =? key x)%Z) rows = Some x.
Proof.
  induction rows as [|r rows IH]; simpl; intros Hnd Hin; [contradiction|].
  inversion Hnd as [|k l Hnotin Hnd']; subst.
  destruct Hin as [->|Hin].
  - now rewrite Z.eqb_refl.
  - destruct (key r =? key x)%Z eqn:E.
    + apply Z.eqb_eq in E. exfalso. apply Hnotin. rewrite E. now apply in_map.
    + now apply IH.
Qed.

Lemma includesProfile_iff (c : Contract) (profileId : Z) :
  includesProfile c profileId = true <->
  ContractorId c = profileId \/ ClientId c = profileId.
Proof.
  unfold includesProfile. simpl. rewrite !orb_true_iff, !Z.eqb_eq.
  split; [intros [H|[H|H]]; [tauto | tauto | discriminate] | tauto].
Qed.

Lemma userWhereClause_party (profile : Profile) (c : Contract) :
  userWhereClause profile c = true -> includesProfile c (profile_id profile) = true.
Proof.
  unfold userWhereClause. intros H. apply includesProfile_iff.
  destruct (String.eqb _ _); apply Z.eqb_eq in H; tauto.
Qed.

(** X17: a contract is shown only to its parties.  Whatever GET
    /contracts/:id returns as JSON is the contract with that id and has the
    caller as client or contractor; every other case, a missing contract and
    somebody else's contract alike, is the same bare 403. *)
Theorem getContract_only_for_parties (profile : Profile) (id : Z) (db : DB) :
  (forall c : Contract,
      getContract profile id db = Json c ->
      Contract_byId db id = Some c /\ contract_id c = id /\
      (ContractorId c = profile_id profile \/ ClientId c = profile_id profile)) /\
  ((forall c : Contract,
       Contract_byId db id = Some c ->
       ContractorId c <> profile_id profile /\ ClientId c <> profile_id profile) ->
   getContract profile id db = StatusOnly 403).
Proof.
  unfold getContract. split.
  - intros c H. destruct (Contract_byId db id) as [c0|] eqn:E; [|discriminate].
    destruct (includesProfile c0 (profile_id profile)) eqn:Ei; [|discriminate].
    injection H as <-. split; [reflexivity|]. split.
    + unfold Contract_byId in E. apply find_some in E. now apply Z.eqb_eq.
    + now apply includesProfile_iff.
  - intros H. destruct (Contract_byId db id) as [c0|]; [|reflexivity].
    destruct (includesProfile c0 (profile_id profile)) eqn:Ei; [|reflexivity].
    apply includesProfile_iff in Ei. destruct (H c0 eq_refl). tauto.
Qed.

Lemma getContract_only_for_parties_witness :
  getContract Fixtures.harry 7 Fixtures.scenario = StatusOnly 403 /\
  getContract Fixtures.harry 70 Fixtures.scenario = StatusOnly 403.
Proof.
  split.
  - apply (getContract_only_for_parties Fixtures.harry 7 Fixtures.scenario).
    intros c H. injection H as <-. split; discriminate.
  - apply (getContract_only_for_parties Fixtures.harry 70 Fixtures.scenario).
    intros c H. discriminate H.
Defined.

(** X18: what GET /contracts lists can be opened.  With unique contract
    ids, every contract listed for a caller is new or in progress (never
    terminated), is on the side the caller's type selects, and GET
    /contracts/:id with its id returns that very contract to the caller. *)
Theorem listContracts_can_be_opened (profile : Profile) (db : DB) (c : Contract) :
  unique_contract_ids db ->
  In c (listContracts profile db) ->
  (status c = "new" \/ status c = "in_progress") /\
  (if String.eqb (profile_type profile) "client"
   then ClientId c = profile_id profile
   else ContractorId c = profile_id profile) /\
  getContract profile (contract_id c) db = Json c.
Proof.
  unfold listContracts. intros Hunique Hin.
  apply filter_In in Hin. destruct Hin as [Hin Htest].
  apply andb_true_iff in Htest. destruct Htest as [Hside Hactive].
  split; [now apply status_active_iff|]. split.
  - unfold userWhereClause in Hside.
    destruct (String.eqb _ _); now apply Z.eqb_eq.
  - unfold getContract, Contract_byId.
    rewrite (find_unique contract_id _ c Hunique Hin).
    now rewrite (userWhereClause_party _ _ Hside).
Qed.

Lemma listContracts_can_be_opened_witness :
  getContract Fixtures.clientA 8 twoContracts
  = Json {| contract_id := 8; status := "new"; ClientId := 10; ContractorId := 20 |}.
Proof.
  apply (listContracts_can_be_opened Fixtures.clientA twoContracts
           {| contract_id := 8; status := "new"; ClientId := 10; ContractorId := 20 |}).
  - unfold unique_contract_ids. simpl.
    repeat constructor; simpl; intuition discriminate.
  - simpl. right. left. reflexivity.
Defined.

Lemma unpaidJobs_In (profile : Profile) (db : DB) (jw : JobWithContract) :
  In jw (unpaidJobs profile db) <->
  In (jw_job jw) (db_Jobs db) /\
  paid (jw_job jw) = Null /\
  Contract_byId db (ContractId (jw_job jw)) = Some (jw_Contract jw) /\
  userWhereClause profile (jw_Contract jw) = true /\
  status (jw_Contract jw) = "in_progress".
Proof.
  unfold unpaidJobs. rewrite in_flat_map. split.
  - intros (j & Hj & Hin).
    destruct (paid j) eqn:Epaid; simpl in Hin; try contradiction.
    destruct (Contract_byId db (ContractId j)) as [c|] eqn:Ec; [|contradiction].
    destruct (userWhereClause profile c && String.eqb (status c) "in_progress") eqn:E;
      [|contradiction].
    destruct Hin as [<-|[]]. simpl.
    apply andb_true_iff in E. destruct E as [E1 E2]. apply String.eqb_eq in E2.
    repeat split; assumption.
  - intros (Hj & Hpaid & Hc & Hside & Hstatus).
    exists (jw_job jw). split; [exact Hj|].
    rewrite Hpaid, Hc, Hside, Hstatus. simpl. left. now destruct jw.
Qed.

(** X19: GET /jobs/unpaid lists only jobs of listed contracts.  Every entry
    is a job of the store whose [paid] is null, joined with its own contract,
    and that contract is in progress and is one of those GET /contracts lists
    for the same caller. *)
Theorem unpaidJobs_of_listed_contracts
    (profile : Profile) (db : DB) (jw : JobWithContract) :
  In jw (unpaidJobs profile db) ->
  In (jw_job jw) (db_Jobs db) /\
  paid (jw_job jw) = Null /\
  contract_id (jw_Contract jw) = ContractId (jw_job jw) /\
  status (jw_Contract jw) = "in_progress" /\
  In (jw_Contract jw) (listContracts profile db).
Proof.
  intros Hin. apply unpaidJobs_In in Hin.
  destruct Hin as (Hj & Hpaid & Hc & Hside & Hstatus).
  unfold Contract_byId in Hc. apply find_some in Hc. destruct Hc as [Hc Hid].
  apply Z.eqb_eq in Hid.
  repeat split; try assumption.
  unfold listContracts. apply filter_In. split; [exact Hc|].
  rewrite Hside. unfold status_active. rewrite Hstatus. reflexivity.
Qed.

Lemma unpaidJobs_of_listed_contracts_witness :
  In {| contract_id := 7; status := "in_progress"; ClientId := 10; ContractorId := 20 |}
     (listContracts Fixtures.clientA twoContracts).
Proof.
  apply (unpaidJobs_of_listed_contracts Fixtures.clientA twoContracts
           {| jw_job := {| job_id := 3; price := 300; paid := Null;
                           paymentDate := None; ContractId := 7 |};
              jw_Contract := {| contract_id := 7; status := "in_progress";
                                ClientId := 10; ContractorId := 20 |} |}).
  simpl. left. reflexivity.
Defined.

(** X20: an unpaid job a client is shown can be paid.  With unique job ids,
    for a client whose profile row exists, any entry of GET /jobs/unpaid
    whose price is at most the client's balance and whose contractor exists
    is answered 201 by the pay handler. *)
Theorem unpaidJobs_are_payable
    (now : Z) (profile payer contractor : Profile) (db : DB) (jw : JobWithContract) :
  unique_job_ids db ->
  profile_type profile = "client" ->
  In jw (unpaidJobs profile db) ->
  Profile_byId db (profile_id profile) = Some payer ->
  Profile_byId db (ContractorId (jw_Contract jw)) = Some contractor ->
  price (jw_job jw) <= balance payer ->
  res_status (fst (fst (payJob now profile (job_id (jw_job jw)) db))) = 201%Z.
Proof.
  intros Hunique Htype Hin Hpayer Hcontractor Hle.
  apply unpaidJobs_In in Hin.
  destruct Hin as (Hj & Hpaid & Hc & Hside & Hstatus).
  assert (Hclient : ClientId (jw_Contract jw) = profile_id profile).
  { unfold userWhereClause in Hside.
    apply String.eqb_eq in Htype. rewrite Htype in Hside. now apply Z.eqb_eq. }
  rewrite (payJob_succeeds now profile (job_id (jw_job jw)) db (jw_job jw)
             (jw_Contract jw) payer contractor); try assumption.
  - reflexivity.
  - unfold Job_byId. now apply find_unique.
  - unfold status_active. rewrite Hstatus. reflexivity.
  - now rewrite Hclient.
  - now rewrite Hpaid.
Qed.

Lemma unpaidJobs_are_payable_witness :
  res_status (fst (fst (payJob 99 Fixtures.clientA 3 twoContracts))) = 201%Z.
Proof.
  apply (unpaidJobs_are_payable 99 Fixtures.clientA Fixtures.clientA Fixtures.contractorB
           twoContracts
           {| jw_job := {| job_id := 3; price := 300; paid := Null;
                           paymentDate := None; ContractId := 7 |};
              jw_Contract := {| contract_id := 7; status := "in_progress";
                                ClientId := 10; ContractorId := 20 |} |}).
  - unfold unique_job_ids. simpl. repeat constructor; simpl; intuition discriminate.
  - reflexivity.
  - simpl. left. reflexivity.
  - reflexivity.
  - reflexivity.
  - discriminate.
Defined.

(** The converse fails: a job of a new contract is payable but not listed. *)
Example payable_but_not_listed :
  res_status (fst (fst (payJob 99 Fixtures.clientA 4 twoContracts))) = 201%Z /\
  map (fun jw => job_id (jw_job jw)) (unpaidJobs Fixtures.clientA twoContracts) = [3%Z].
Proof. split; reflexivity. Qed.

Lemma unpaid_after_update
    (lookup : Z -> option Contract) (test : Contract -> bool)
    (jobId now : Z) (jobs : list Job) :
  flat_map
    (fun j => if is_null (paid j)
              then match lookup (ContractId j) with
                   | Some c => if test c then [ {| jw_job := j; jw_Contract := c |} ]
                               else []
                   | None => []
                   end
              else [])
    (map (fun j => if (job_id j =? jobId)%Z
                   then {| job_id := job_id j; price := price j; paid := Bool true;
                           paymentDate := Some now; ContractId := ContractId j |}
                   else j) jobs)
  = filter (fun jw => negb (job_id (jw_job jw) =? jobId)%Z)
      (flat_map
         (fun j => if is_null (paid j)
                   then match lookup (ContractId j) with
                        | Some c => if test c then [ {| jw_job := j; jw_Contract := c |} ]
                                    else []
                        | None => []
                        end
                   else [])
         jobs).
Proof.
  induction jobs as [|j jobs IH]; simpl; [reflexivity|].
  rewrite filter_app, <- IH. f_equal.
  destruct (job_id j =? jobId)%Z eqn:E; simpl.
  - destruct (is_null (paid j)); [|reflexivity].
    destruct (lookup (ContractId j)) as [c|]; [|reflexivity].
    destruct (test c); [|reflexivity]. simpl. now rewrite E.
  - destruct (is_null (paid j)); [|reflexivity].
    destruct (lookup (ContractId j)) as [c|]; [|reflexivity].
    destruct (test c); [|reflexivity]. simpl. now rewrite E.
Qed.

(** X21: a paid job leaves the unpaid list.  After a 201 of the pay handler,
    GET /jobs/unpaid gives any caller what it gave before without the entries
    of the job just paid; every other entry stays, in the same order. *)
Theorem unpaidJobs_after_payment
    (now : Z) (profile viewer : Profile) (jobId : Z) (db : DB) :
  res_status (fst (fst (payJob now profile jobId db))) = 201%Z ->
  unpaidJobs viewer (snd (fst (payJob now profile jobId db)))
  = filter (fun jw => negb (job_id (jw_job jw) =? jobId)%Z) (unpaidJobs viewer db).
Proof.
  intros Hok.
  destruct (payJob now profile jobId db) as [[resp db'] queries] eqn:Hrun.
  destruct (payJob_201_inv _ _ _ _ _ _ _ Hrun Hok)
    as (job & c & client & contractor & _ & _ & _ & _ & _ & _ & _ & _ & _ & _ & _ & ->).
  simpl fst. simpl snd. unfold unpaidJobs.
  exact (unpaid_after_update (Contract_byId db)
           (fun c => userWhereClause viewer c && String.eqb (status c) "in_progress")
           jobId now (db_Jobs db)).
Qed.

Lemma unpaidJobs_after_payment_witness :
  unpaidJobs Fixtures.contractorB
    (snd (fst (payJob 99 Fixtures.clientA 3 Fixtures.scenario)))
  = filter (fun jw => negb (job_id (jw_job jw) =? 3)%Z)
      (unpaidJobs Fixtures.contractorB Fixtures.scenario).
Proof.
  apply (unpaidJobs_after_payment 99 Fixtures.clientA Fixtures.contractorB 3
           Fixtures.scenario).
  reflexivity.
Defined.

(** ** The deposit ceiling after a payment *)






